(** * Whalen protocol backend: matching, escrow and verification

    A shallow embedding of the marketplace core of the backend:
    [utils/helpers.js] (match score), the row models
    ([ProviderCapability], [ComputeRequest], [Match]), the three
    services ([MatchingService], [PaymentService], [VerificationService])
    and the match and request routes.

    Conventions.
    - A JavaScript number is an IEEE 754 binary64 value: Rocq's primitive
      [float].  Numeric columns are carried as the numbers the queries
      receive and return.  The driver hands a [DECIMAL] column over as
      text: the number it denotes is carried, and no statement reads
      what the JavaScript code computes from two such columns (the
      scores inside [findMatches], for a request read from the table).
    - A table with a [UUID PRIMARY KEY] is a finite map from the key to
      the row ([gmap string _]); a key is the canonical text of the
      UUID, as the database prints it.
    - An [async] function that reads and writes the database, calls the
      payment processor or draws a UUID is a function
      [World -> result A * World]: the world after a [throw] is kept,
      since writes made before the failure are not rolled back.
    - [throw new Error(msg)] is [Throw msg].
    - The database enforces the primary and foreign keys of the schema.
      The input conversions of the [INT], [DECIMAL(18,8)], [VARCHAR(n)]
      and [JSONB] columns ([Sql]) are modelled where a function writes
      its arguments to such columns: [ProviderCapability.create] and
      [updateAvailability], [PaymentService.createPaymentIntent] and
      [VerificationService.submitProof]; elsewhere a statement that
      needs a value to be accepted assumes it.  A query raises when a
      parameter compared with a [UUID] column is not the text of a
      UUID; the model looks the text up instead, and a statement about
      an id without a row therefore assumes the id to be canonical UUID
      text ([Sql.canonical_uuid]).  Failures of the infrastructure (a
      lost connection, a timeout) are outside the model. *)

From Stdlib Require Import PrimFloat ZArith.
From stdpp Require Import gmap strings list fin_maps pretty.

Set Warnings "-inexact-float".
Local Open Scope string_scope.

(** ** JavaScript numbers *)

Abbreviation number := float.

Module Js.

Definition isNaN (x : number) : bool := negb (x =? x)%float.

(** [ToBoolean] on a number: [0], [-0] and [NaN] are falsy. *)
Definition truthy (x : number) : bool := negb ((x =? 0)%float || isNaN x).

(** [ToBoolean] on a string: only the empty string is falsy. *)
Definition truthy_str (s : string) : bool := negb (String.eqb s "").

Definition is_negative_zero (x : number) : bool :=
  ((x =? 0) && (1 / x <? 0))%float.

(** [Math.max(a, b)]: [NaN] if either is, and [+0] above [-0]. *)
Definition Math_max (a b : number) : number :=
  if isNaN a || isNaN b then nan
  else if (a <? b)%float then b
  else if (b <? a)%float then a
  else if is_negative_zero a then b else a.

Definition two52 : number := 4503599627370496%float.

(** [Math.floor]: every binary64 of magnitude at least 2^52 is integral;
    below it, adding and removing 2^52 rounds to a neighbouring
    integer, which is then stepped down when it lies above [x]. *)
Definition Math_floor (x : number) : number :=
  if isNaN x || (two52 <=? abs x)%float then x
  else
    let r := if (0 <=? x)%float then ((x + two52) - two52)%float
             else ((x - two52) + two52)%float in
    let f := if (x <? r)%float then (r - 1)%float else r in
    if (f =? 0)%float && is_negative_zero x then x else f.

(** [Math.round]: the nearest integer, ties towards +infinity; a zero
    result keeps the sign of a negative argument. *)
Definition Math_round (x : number) : number :=
  if isNaN x || (two52 <=? abs x)%float then x
  else
    let f := Math_floor x in
    let r := if (0.5 <=? x - f)%float then (f + 1)%float else f in
    if (r =? 0)%float && ((x <? 0)%float || is_negative_zero x)
    then (-0)%float else r.

End Js.

(** ** Results of fallible code *)

Inductive result (A : Type) : Type :=
| Ok (a : A)
| Throw (msg : string).
Arguments Ok {A} a.
Arguments Throw {A} msg.

Definition is_ok {A} (r : result A) : bool :=
  match r with Ok _ => true | Throw _ => false end.

(** ** Column types of the schema

    What PostgreSQL accepts for a column from the text that the driver
    sends for a JavaScript value ([String(x)] for a number). *)

Module Sql.

Definition is_lower_hex (c : Ascii.ascii) : bool :=
  let n := Ascii.nat_of_ascii c in
  (Nat.leb 48 n && Nat.leb n 57) || (Nat.leb 97 n && Nat.leb n 102).

(** [n] hexadecimal digits, then the rest of the text. *)
Fixpoint hex_run (n : nat) (s : string) : option string :=
  match n with
  | O => Some s
  | S n' =>
      match s with
      | String c rest => if is_lower_hex c then hex_run n' rest else None
      | EmptyString => None
      end
  end.

(** A hyphen (the character 45), then the rest of the text. *)
Definition dash (s : string) : option string :=
  match s with
  | String c rest => if Nat.eqb (Ascii.nat_of_ascii c) 45 then Some rest else None
  | EmptyString => None
  end.

(** [UUID]: the canonical text, 8-4-4-4-12 lower-case hexadecimal
    digits.  The database prints every UUID in this form; it reads
    other spellings too, and raises on a text that is none. *)
Definition canonical_uuid (s : string) : bool :=
  match s ← hex_run 8 s; s ← dash s; s ← hex_run 4 s; s ← dash s;
        s ← hex_run 4 s; s ← dash s; s ← hex_run 4 s; s ← dash s; hex_run 12 s with
  | Some EmptyString => true
  | _ => false
  end.

(** [INT]: the text of a number is accepted when the number is an
    integer between -2^31 and 2^31 - 1; [2.5], [NaN] and [2147483648]
    raise. *)
Definition int4_accepts (x : number) : bool :=
  ((Js.Math_floor x =? x) && (-2147483648 <=? x) && (x <=? 2147483647))%float.

(** The [INT] kept: the integer itself, [0] for [-0]. *)
Definition int4 (x : number) : number := (x + 0)%float.

(** [DECIMAL(18,8)]: ten digits before the point.  A number of
    magnitude 10^10 or more, infinite ones included, raises a numeric
    field overflow; [NaN] is a value of the type. *)
Definition numeric_18_8_accepts (x : number) : bool :=
  Js.isNaN x || (abs x <? 10000000000)%float.

(** A finite number, which every version of the database reads as a
    [NUMERIC] parameter. *)
Definition finite (x : number) : bool := (abs x <? infinity)%float.

(** [TEXT]: any character but the null character. *)
Fixpoint text_accepts (s : string) : bool :=
  match s with
  | EmptyString => true
  | String c rest => negb (Nat.eqb (Ascii.nat_of_ascii c) 0) && text_accepts rest
  end.

(** [VARCHAR(n)]: a text of at most [n] characters (of one byte each,
    here). *)
Definition varchar_accepts (n : nat) (s : string) : bool :=
  text_accepts s && Nat.leb (String.length s) n.

End Sql.

(** ** Rows of the schema ([schema.sql]) *)

Inductive AvailabilityStatus := Available | Busy | Offline.
Inductive RequestStatus :=
  ReqPending | ReqMatched | ReqInProgress | ReqCompleted | ReqFailed | ReqCancelled.
Inductive MatchStatus :=
  Proposed | Accepted | MatchInProgress | Completed | MatchFailed | Cancelled.
Inductive TransactionStatus :=
  TxPending | Escrowed | Verified | Settled | TxFailed | Refunded.

Definition AvailabilityStatus_eqb (a b : AvailabilityStatus) : bool :=
  match a, b with
  | Available, Available | Busy, Busy | Offline, Offline => true
  | _, _ => false
  end.

(** [agents]: the columns the modelled queries read. *)
Record AgentRow := {
  a_id : string;
  a_name : string;
  a_type : string;
  a_reputation_score : option number;
  a_uptime_percentage : option number;
}.

Record CapabilityRow := {
  pc_id : string;
  pc_provider_id : string;
  pc_gpu_count : number;
  pc_gpu_type : string;
  pc_cpu_cores : number;
  pc_memory_gb : number;
  pc_price_per_hour : number;
  pc_available_hours : number;
  pc_region : option string;
  pc_availability_status : AvailabilityStatus;
}.

Record ComputeRequestRow := {
  cr_id : string;
  cr_requester_id : string;
  cr_gpu_count : number;
  cr_gpu_type : string;
  cr_duration_hours : number;
  cr_max_price_per_hour : number;
  cr_status : RequestStatus;
  cr_description : option string;
  cr_updated_at : Z;
}.

Record MatchRow := {
  m_id : string;
  m_request_id : string;
  m_provider_id : string;
  m_capability_id : option string;
  m_agreed_price_per_hour : number;
  m_status : MatchStatus;
  m_start_time : option Z;
  m_end_time : option Z;
  m_created_at : Z;
  m_updated_at : Z;
}.

Record TransactionRow := {
  t_id : string;
  t_match_id : string;
  t_requester_id : string;
  t_provider_id : string;
  t_amount : number;
  t_currency : string;
  t_status : TransactionStatus;
  t_payment_method : option string;
  t_transaction_hash : option string;
  t_created_at : Z;
  t_updated_at : Z;
}.

Record VerificationRow := {
  v_id : string;
  v_transaction_id : string;
  v_verifier_id : option string;
  v_proof_hash : option string;
  v_proof_data : option string;
  v_verified : bool;
  v_notes : option string;
  v_created_at : Z;
  v_updated_at : Z;
}.

Record Store := {
  agents : gmap string AgentRow;
  provider_capabilities : gmap string CapabilityRow;
  compute_requests : gmap string ComputeRequestRow;
  matches : gmap string MatchRow;
  transactions : gmap string TransactionRow;
  verifications : gmap string VerificationRow;
}.

Definition set_compute_requests (f : gmap string ComputeRequestRow -> gmap string ComputeRequestRow)
    (s : Store) : Store :=
  {| agents := agents s; provider_capabilities := provider_capabilities s;
     compute_requests := f (compute_requests s); matches := matches s;
     transactions := transactions s; verifications := verifications s |}.

Definition set_matches (f : gmap string MatchRow -> gmap string MatchRow)
    (s : Store) : Store :=
  {| agents := agents s; provider_capabilities := provider_capabilities s;
     compute_requests := compute_requests s; matches := f (matches s);
     transactions := transactions s; verifications := verifications s |}.

Definition set_transactions (f : gmap string TransactionRow -> gmap string TransactionRow)
    (s : Store) : Store :=
  {| agents := agents s; provider_capabilities := provider_capabilities s;
     compute_requests := compute_requests s; matches := matches s;
     transactions := f (transactions s); verifications := verifications s |}.

Definition set_verifications (f : gmap string VerificationRow -> gmap string VerificationRow)
    (s : Store) : Store :=
  {| agents := agents s; provider_capabilities := provider_capabilities s;
     compute_requests := compute_requests s; matches := matches s;
     transactions := transactions s; verifications := f (verifications s) |}.

(** ** The payment processor and the world *)

(** The calls the services make on the processor client. *)
Inductive StripeCall :=
| PaymentIntentsCreate (amount : number) (currency : string)
    (matchId requesterId providerId : string) (description : string)
| PaymentIntentsRetrieve (id : string)
| RefundsCreate (payment_intent : option string).

Record PaymentIntent := {
  pi_id : string;
  pi_client_secret : string;
  pi_status : string;
}.

(** What lies outside the repository: the processor, which answers a call
    knowing the calls made before it, the UUID generator, the [n]-th
    draw of which is [uuidv4 n], and the rounding of the database:
    [numeric_18_8 x] is what a [DECIMAL(18,8)] column keeps of a number
    [x] that it accepts, [x] rounded to eight decimals. *)
Record Env := {
  uuidv4 : nat -> string;
  numeric_18_8 : number -> number;
  stripe_paymentIntents_create : list StripeCall -> StripeCall -> result PaymentIntent;
  stripe_paymentIntents_retrieve : list StripeCall -> string -> result PaymentIntent;
  stripe_refunds_create : list StripeCall -> option string -> result unit;
}.

Record World := {
  db : Store;
  stripe_calls : list StripeCall;
  uuid_drawn : nat;
  now : Z;
}.

Definition set_db (f : Store -> Store) (w : World) : World :=
  {| db := f (db w); stripe_calls := stripe_calls w;
     uuid_drawn := uuid_drawn w; now := now w |}.

Definition log_call (c : StripeCall) (w : World) : World :=
  {| db := db w; stripe_calls := stripe_calls w ++ [c];
     uuid_drawn := uuid_drawn w; now := now w |}.

(** ** Effectful code: state and exceptions *)

Definition M (A : Type) : Type := World -> result A * World.

Definition ret {A} (a : A) : M A := fun w => (Ok a, w).
Definition throw {A} (msg : string) : M A := fun w => (Throw msg, w).
Definition bind {A B} (m : M A) (k : A -> M B) : M B :=
  fun w => match m w with
           | (Ok a, w') => k a w'
           | (Throw e, w') => (Throw e, w')
           end.
Definition get_world : M World := fun w => (Ok w, w).
Definition modify (f : World -> World) : M unit := fun w => (Ok tt, f w).

(** [try { m } catch (error) { throw new Error(prefix + error.message) }] *)
Definition catch_rewrap {A} (prefix : string) (m : M A) : M A :=
  fun w => match m w with
           | (Throw e, w') => (Throw (prefix ++ e), w')
           | r => r
           end.

(** [try { m } catch (error) { console.error(..); throw error }] *)
Definition catch_rethrow {A} (m : M A) : M A :=
  fun w => match m w with
           | (Throw e, w') => (Throw e, w')
           | r => r
           end.

#[global] Instance M_ret : MRet M := @ret.
#[global] Instance M_bind : MBind M := fun A B k m => bind m k.

(** A read-only query. *)
Definition query {A} (f : Store -> A) : M A := fun w => (Ok (f (db w)), w).

(** An [UPDATE]: the store is rewritten, nothing is returned. *)
Definition exec (f : Z -> Store -> Store) : M unit :=
  fun w => (Ok tt, set_db (f (now w)) w).

(** [uuidv4()] / [generateId()] *)
Definition draw_uuid (env : Env) : M string :=
  fun w => (Ok (uuidv4 env (uuid_drawn w)),
            {| db := db w; stripe_calls := stripe_calls w;
               uuid_drawn := S (uuid_drawn w); now := now w |}).

(** ** Sorting *)

(** A stable insertion sort: [x] is placed in front of the first element
    it strictly precedes.  [Array.prototype.sort] is stable, and so any
    implementation of it agrees with this one on a consistent
    comparator. *)
Fixpoint insert_by {A} (before : A -> A -> bool) (x : A) (l : list A) : list A :=
  match l with
  | [] => [x]
  | y :: l' => if before x y then x :: y :: l' else y :: insert_by before x l'
  end.

Definition sort_by {A} (before : A -> A -> bool) (l : list A) : list A :=
  fold_left (fun acc x => insert_by before x acc) l [].

(** ** Models *)

(** A row of [ProviderCapability.search]:
    [SELECT pc.*, a.reputation_score, a.uptime_percentage]. *)
Record CapabilityHit := {
  hit_capability : CapabilityRow;
  hit_reputation_score : option number;
  hit_uptime_percentage : option number;
}.

Module ProviderCapability.

(** [JOIN agents a ON pc.provider_id = a.id] *)
Definition join_agent (s : Store) (pc : CapabilityRow) : option CapabilityHit :=
  a ← agents s !! pc_provider_id pc;
  Some {| hit_capability := pc;
          hit_reputation_score := a_reputation_score a;
          hit_uptime_percentage := a_uptime_percentage a |}.

(** The [WHERE] clause; [region] is appended only when truthy. *)
Definition where_clause (gpuCount : number) (gpuType : string) (maxPrice : number)
    (region : option string) (pc : CapabilityRow) : bool :=
  (gpuCount <=? pc_gpu_count pc)%float
  && String.eqb (pc_gpu_type pc) gpuType
  && (pc_price_per_hour pc <=? maxPrice)%float
  && AvailabilityStatus_eqb (pc_availability_status pc) Available
  && match region with
     | Some r =>
         if Js.truthy_str r
         then match pc_region pc with Some r' => String.eqb r' r | None => false end
         else true
     | None => true
     end.

(** [a.reputation_score DESC]: a [NULL] sorts before every value. *)
Definition reputation_desc_before (x y : option number) : bool :=
  match x, y with
  | Some a, Some b => (b <? a)%float
  | None, Some _ => true
  | _, _ => false
  end.

(** [ORDER BY pc.price_per_hour ASC, a.reputation_score DESC] *)
Definition order_before (x y : CapabilityHit) : bool :=
  let px := pc_price_per_hour (hit_capability x) in
  let py := pc_price_per_hour (hit_capability y) in
  (px <? py)%float
  || ((px =? py)%float
      && reputation_desc_before (hit_reputation_score x) (hit_reputation_score y)).

Definition search (gpuCount : number) (gpuType : string) (maxPrice : number)
    (region : option string) (s : Store) : list CapabilityHit :=
  let rows := omap (fun kv => join_agent s (snd kv))
                   (map_to_list (provider_capabilities s)) in
  sort_by order_before
    (List.filter (fun h => where_clause gpuCount gpuType maxPrice region
                             (hit_capability h)) rows).

(** The timestamps of [provider_capabilities] are not carried. *)
Definition set_provider_capabilities
    (f : gmap string CapabilityRow -> gmap string CapabilityRow) (s : Store) : Store :=
  {| agents := agents s; provider_capabilities := f (provider_capabilities s);
     compute_requests := compute_requests s; matches := matches s;
     transactions := transactions s; verifications := verifications s |}.

(** [INSERT INTO provider_capabilities (id, provider_id, gpu_count,
    gpu_type, cpu_cores, memory_gb, price_per_hour, region) .. RETURNING *]:
    [available_hours] and [availability_status] take their defaults 0
    and ['available'].  [region] is [None] when the argument is left
    out, and then defaults to ['us-east-1'].  The values are converted
    to the types of their columns before the keys are checked. *)
Definition create (env : Env) (providerId : string) (gpuCount : number)
    (gpuType : string) (cpuCores memoryGb pricePerHour : number)
    (region : option string) : M CapabilityRow :=
  id ← draw_uuid env;
  w ← get_world;
  let region := default "us-east-1" region in
  let row := {| pc_id := id; pc_provider_id := providerId;
                pc_gpu_count := Sql.int4 gpuCount;
                pc_gpu_type := gpuType; pc_cpu_cores := Sql.int4 cpuCores;
                pc_memory_gb := Sql.int4 memoryGb;
                pc_price_per_hour := numeric_18_8 env pricePerHour;
                pc_available_hours := 0%float;
                pc_region := Some region;
                pc_availability_status := Available |} in
  if negb (Sql.int4_accepts gpuCount && Sql.int4_accepts cpuCores
           && Sql.int4_accepts memoryGb)
  then throw "invalid input syntax for type integer"
  else if negb (Sql.varchar_accepts 50 gpuType && Sql.varchar_accepts 100 region)
  then throw "value too long for type character varying"
  else if negb (Sql.numeric_18_8_accepts pricePerHour)
  then throw "numeric field overflow"
  else if bool_decide (is_Some (provider_capabilities (db w) !! id))
  then throw "duplicate key value violates unique constraint provider_capabilities_pkey"
  else if negb (bool_decide (is_Some (agents (db w) !! providerId)))
  then throw "insert or update on table provider_capabilities violates foreign key constraint"
  else
    modify (set_db (set_provider_capabilities <[id := row]>));; mret row.

Definition findById (id : string) (s : Store) : option CapabilityRow :=
  provider_capabilities s !! id.

(** [SET available_hours = .., availability_status = ..] *)
Definition with_availability (availableHours : number) (status : AvailabilityStatus)
    (row : CapabilityRow) : CapabilityRow :=
  {| pc_id := pc_id row; pc_provider_id := pc_provider_id row;
     pc_gpu_count := pc_gpu_count row; pc_gpu_type := pc_gpu_type row;
     pc_cpu_cores := pc_cpu_cores row; pc_memory_gb := pc_memory_gb row;
     pc_price_per_hour := pc_price_per_hour row;
     pc_available_hours := availableHours;
     pc_region := pc_region row;
     pc_availability_status := status |}.

(** [UPDATE provider_capabilities SET available_hours = ..,
    availability_status = .. WHERE id = .. RETURNING *], then
    [result.rows[0] || null]; [available_hours] is an [INT]. *)
Definition updateAvailability (id : string) (availableHours : number)
    (status : AvailabilityStatus) : M (option CapabilityRow) :=
  if negb (Sql.int4_accepts availableHours)
  then throw "invalid input syntax for type integer"
  else
    exec (fun _ => set_provider_capabilities
            (alter (with_availability (Sql.int4 availableHours) status) id));;
    query (findById id).

(** A match keeps a reference to its capability
    ([capability_id UUID REFERENCES provider_capabilities(id)], without
    [ON DELETE CASCADE]). *)
Definition referenced_by_match (id : string) (s : Store) : bool :=
  bool_decide (map_Exists (fun _ m => m_capability_id m = Some id) (matches s)).

(** [DELETE FROM provider_capabilities WHERE id = ..] *)
Definition delete (id : string) : M unit :=
  w ← get_world;
  if bool_decide (is_Some (provider_capabilities (db w) !! id))
     && referenced_by_match id (db w)
  then throw "update or delete on table provider_capabilities violates foreign key constraint on table matches"
  else exec (fun _ => set_provider_capabilities (base.delete id)).

End ProviderCapability.

Module ComputeRequest.

Inductive Assignment :=
| SetStatus (s : RequestStatus).

Definition findById (id : string) (s : Store) : option ComputeRequestRow :=
  compute_requests s !! id.

Definition assign (row : ComputeRequestRow) (u : Assignment) : ComputeRequestRow :=
  match u with
  | SetStatus st =>
      {| cr_id := cr_id row; cr_requester_id := cr_requester_id row;
         cr_gpu_count := cr_gpu_count row; cr_gpu_type := cr_gpu_type row;
         cr_duration_hours := cr_duration_hours row;
         cr_max_price_per_hour := cr_max_price_per_hour row;
         cr_status := st; cr_description := cr_description row;
         cr_updated_at := cr_updated_at row |}
  end.

Definition touch (t : Z) (row : ComputeRequestRow) : ComputeRequestRow :=
  {| cr_id := cr_id row; cr_requester_id := cr_requester_id row;
     cr_gpu_count := cr_gpu_count row; cr_gpu_type := cr_gpu_type row;
     cr_duration_hours := cr_duration_hours row;
     cr_max_price_per_hour := cr_max_price_per_hour row;
     cr_status := cr_status row; cr_description := cr_description row;
     cr_updated_at := t |}.

(** [UPDATE compute_requests SET .., updated_at = CURRENT_TIMESTAMP
    WHERE id = .. RETURNING *], or [findById] for no assignment. *)
Definition update (id : string) (updates : list Assignment)
    : M (option ComputeRequestRow) :=
  match updates with
  | [] => query (findById id)
  | _ =>
      exec (fun t => set_compute_requests
              (alter (fun row => touch t (fold_left assign updates row)) id));;
      query (fun s => compute_requests s !! id)
  end.

End ComputeRequest.

(** A row of [Match.findById]: [SELECT m.*, cr.gpu_count,
    cr.duration_hours, cr.gpu_type, a.name, a.reputation_score]. *)
Record MatchDetails := {
  md_match : MatchRow;
  md_gpu_count : number;
  md_duration_hours : number;
  md_gpu_type : string;
  md_provider_name : string;
  md_reputation_score : option number;
}.

Module Match.

Inductive Assignment :=
| SetStatus (s : MatchStatus)
| SetStartTime (t : Z)
| SetEndTime (t : Z).

Definition findById (id : string) (s : Store) : option MatchDetails :=
  m ← matches s !! id;
  cr ← compute_requests s !! m_request_id m;
  a ← agents s !! m_provider_id m;
  Some {| md_match := m; md_gpu_count := cr_gpu_count cr;
          md_duration_hours := cr_duration_hours cr;
          md_gpu_type := cr_gpu_type cr; md_provider_name := a_name a;
          md_reputation_score := a_reputation_score a |}.

Definition assign (row : MatchRow) (u : Assignment) : MatchRow :=
  {| m_id := m_id row; m_request_id := m_request_id row;
     m_provider_id := m_provider_id row; m_capability_id := m_capability_id row;
     m_agreed_price_per_hour := m_agreed_price_per_hour row;
     m_status := match u with SetStatus st => st | _ => m_status row end;
     m_start_time := match u with SetStartTime t => Some t | _ => m_start_time row end;
     m_end_time := match u with SetEndTime t => Some t | _ => m_end_time row end;
     m_created_at := m_created_at row; m_updated_at := m_updated_at row |}.

Definition touch (t : Z) (row : MatchRow) : MatchRow :=
  {| m_id := m_id row; m_request_id := m_request_id row;
     m_provider_id := m_provider_id row; m_capability_id := m_capability_id row;
     m_agreed_price_per_hour := m_agreed_price_per_hour row;
     m_status := m_status row; m_start_time := m_start_time row;
     m_end_time := m_end_time row;
     m_created_at := m_created_at row; m_updated_at := t |}.

(** The foreign keys of [matches]. *)
Definition references_ok (s : Store) (row : MatchRow) : bool :=
  bool_decide (is_Some (compute_requests s !! m_request_id row))
  && bool_decide (is_Some (agents s !! m_provider_id row))
  && match m_capability_id row with
     | Some c => bool_decide (is_Some (provider_capabilities s !! c))
     | None => true
     end.

(** [INSERT INTO matches (id, request_id, provider_id, capability_id,
    agreed_price_per_hour) .. RETURNING *]: the other columns take
    their defaults, and the key constraints are checked. *)
Definition create (env : Env) (requestId providerId : string)
    (capabilityId : option string) (agreedPricePerHour : number) : M MatchRow :=
  id ← draw_uuid env;
  w ← get_world;
  let row := {| m_id := id; m_request_id := requestId; m_provider_id := providerId;
                m_capability_id := capabilityId;
                m_agreed_price_per_hour := agreedPricePerHour;
                m_status := Proposed; m_start_time := None; m_end_time := None;
                m_created_at := now w; m_updated_at := now w |} in
  if bool_decide (is_Some (matches (db w) !! id))
  then throw "duplicate key value violates unique constraint matches_pkey"
  else if negb (references_ok (db w) row)
  then throw "insert or update on table matches violates foreign key constraint"
  else modify (set_db (set_matches <[id := row]>));; mret row.

(** [UPDATE matches SET .., updated_at = CURRENT_TIMESTAMP WHERE id = ..
    RETURNING *], then [result.rows[0] || null].  Without assignment
    the source returns [findById(id)], whose [m.*] part is given
    here. *)
Definition update (id : string) (updates : list Assignment) : M (option MatchRow) :=
  match updates with
  | [] => query (fun s => md_match <$> findById id s)
  | _ =>
      exec (fun t => set_matches
              (alter (fun row => touch t (fold_left assign updates row)) id));;
      query (fun s => matches s !! id)
  end.

End Match.

(** ** [utils/helpers.js] *)

(** The request as the matching code reads it: a [compute_requests] row
    or the ad-hoc object of the discovery route. *)
Record ReqQuery := {
  rq_gpu_count : number;
  rq_gpu_type : string;
  rq_duration_hours : number;
  rq_max_price_per_hour : number;
  rq_region : option string;
}.

(** The properties of a capability that the score reads. *)
Record CapabilityView := {
  cv_gpu_count : number;
  cv_price_per_hour : number;
  cv_available_hours : number;
  cv_reputation_score : option number;
}.

(** [capability.reputation_score || 5] *)
Definition reputation_or_5 (r : option number) : number :=
  match r with
  | Some x => if Js.truthy x then x else 5%float
  | None => 5%float
  end.

Definition calculateMatchScore (request : ReqQuery) (capability : CapabilityView) : number :=
  let score := 100%float in
  (* GPU match *)
  let score :=
    if (rq_gpu_count request <=? cv_gpu_count capability)%float
    then (score + 20)%float else (score - 30)%float in
  (* Price match *)
  let score :=
    if (cv_price_per_hour capability <=? rq_max_price_per_hour request)%float
    then
      let priceRatio := (cv_price_per_hour capability / rq_max_price_per_hour request)%float in
      (score + (1 - priceRatio) * 20)%float
    else (score - 40)%float in
  (* Availability *)
  let score :=
    if (rq_duration_hours request <=? cv_available_hours capability)%float
    then (score + 15)%float else (score - 20)%float in
  (* Reputation bonus *)
  let score := (score + reputation_or_5 (cv_reputation_score capability) * 2)%float in
  Js.Math_max 0%float score.

(** The envelopes of [formatResponse] and [formatError]; [timestamp] is
    the instant that [new Date().toISOString()] prints. *)
Inductive Envelope (A : Type) : Type :=
| ResponseEnvelope (success : bool) (statusCode : Z) (message : string) (data : A)
    (timestamp : Z)
| ErrorEnvelope (statusCode : Z) (message : string) (error : option string)
    (timestamp : Z).
Arguments ResponseEnvelope {A} success statusCode message data timestamp.
Arguments ErrorEnvelope {A} statusCode message error timestamp.

Definition formatResponse {A} (data : A) (message : string) (statusCode : Z)
    (timestamp : Z) : Envelope A :=
  ResponseEnvelope ((200 <=? statusCode)%Z && (statusCode <? 300)%Z)
    statusCode message data timestamp.

(** [error] is the caught exception, if one is passed: its message is
    reported. *)
Definition formatError {A} (message : string) (statusCode : Z) (error : option string)
    (timestamp : Z) : Envelope A :=
  ErrorEnvelope statusCode message error timestamp.

(** [haystack.includes(needle)] *)
Fixpoint includes (needle haystack : string) : bool :=
  String.prefix needle haystack
  || match haystack with
     | EmptyString => false
     | String _ rest => includes needle rest
     end.

(** ** [services/MatchingService.js] *)

Definition view_of_hit (h : CapabilityHit) : CapabilityView :=
  {| cv_gpu_count := pc_gpu_count (hit_capability h);
     cv_price_per_hour := pc_price_per_hour (hit_capability h);
     cv_available_hours := pc_available_hours (hit_capability h);
     cv_reputation_score := hit_reputation_score h |}.

(** [{ ...provider, match_score }] *)
Record ScoredProvider := {
  sp_provider : CapabilityHit;
  match_score : number;
}.

(** A [compute_requests] row has no [region] column: [request.region]
    is [undefined] on it. *)
Definition query_of_row (r : ComputeRequestRow) : ReqQuery :=
  {| rq_gpu_count := cr_gpu_count r; rq_gpu_type := cr_gpu_type r;
     rq_duration_hours := cr_duration_hours r;
     rq_max_price_per_hour := cr_max_price_per_hour r; rq_region := None |}.

Module MatchingService.

(** [request.region || null] *)
Definition region_or_null (r : option string) : option string :=
  match r with
  | Some s => if Js.truthy_str s then Some s else None
  | None => None
  end.

(** The comparator [(a, b) => b.match_score - a.match_score] puts [a]
    first when it is negative. *)
Definition score_before (a b : ScoredProvider) : bool :=
  (match_score b - match_score a <? 0)%float.

Definition findMatches (request : ReqQuery) (limit : nat) : M (list ScoredProvider) :=
  catch_rethrow (
    providers ← query (ProviderCapability.search
                         (rq_gpu_count request) (rq_gpu_type request)
                         (rq_max_price_per_hour request)
                         (region_or_null (rq_region request)));
    if Nat.eqb (length providers) 0 then mret []
    else
      let scoredProviders :=
        map (fun provider =>
               {| sp_provider := provider;
                  match_score := calculateMatchScore request (view_of_hit provider) |})
            providers in
      let scoredProviders := sort_by score_before scoredProviders in
      mret (take limit scoredProviders)).

Definition autoMatch (env : Env) (requestId : string) : M (option MatchRow) :=
  catch_rethrow (
    request ← query (ComputeRequest.findById requestId);
    match request with
    | None => throw "Request not found"
    | Some request =>
        matches ← findMatches (query_of_row request) 1;
        match matches with
        | [] => mret None
        | bestProvider :: _ =>
            let cap := hit_capability (sp_provider bestProvider) in
            match_ ← Match.create env requestId (pc_provider_id cap)
                       (Some (pc_id cap)) (pc_price_per_hour cap);
            ComputeRequest.update requestId [ComputeRequest.SetStatus ReqMatched];;
            mret (Some match_)
        end
    end).

Definition acceptMatch (matchId providerId : string) : M (option MatchRow) :=
  catch_rethrow (
    match_ ← query (Match.findById matchId);
    match match_ with
    | None => throw "Match not found"
    | Some match_ =>
        if negb (String.eqb (m_provider_id (md_match match_)) providerId)
        then throw "Unauthorized: Only the provider can accept this match"
        else
          w ← get_world;
          updatedMatch ← Match.update matchId
                           [Match.SetStatus Accepted; Match.SetStartTime (now w)];
          ComputeRequest.update (m_request_id (md_match match_))
            [ComputeRequest.SetStatus ReqInProgress];;
          mret updatedMatch
    end).

Definition completeMatch (matchId providerId : string) : M (option MatchRow) :=
  catch_rethrow (
    match_ ← query (Match.findById matchId);
    match match_ with
    | None => throw "Match not found"
    | Some match_ =>
        if negb (String.eqb (m_provider_id (md_match match_)) providerId)
        then throw "Unauthorized: Only the provider can complete this match"
        else
          w ← get_world;
          updatedMatch ← Match.update matchId
                           [Match.SetStatus Completed; Match.SetEndTime (now w)];
          ComputeRequest.update (m_request_id (md_match match_))
            [ComputeRequest.SetStatus ReqCompleted];;
          mret updatedMatch
    end).

Definition cancelMatch (matchId agentId : string) : M (option MatchRow) :=
  catch_rethrow (
    match_ ← query (Match.findById matchId);
    match match_ with
    | None => throw "Match not found"
    | Some _ =>
        updatedMatch ← Match.update matchId [Match.SetStatus Cancelled];
        mret updatedMatch
    end).

End MatchingService.

(** ** [services/PaymentService.js] *)

(** A call on the processor client: it is recorded, answered or not. *)
Definition stripe_call {A} (answer : list StripeCall -> result A) (c : StripeCall) : M A :=
  fun w => (answer (stripe_calls w), log_call c w).

Record PaymentData := {
  pd_transactionId : string;
  pd_paymentIntentId : string;
  pd_clientSecret : string;
  pd_amount : number;
  pd_status : TransactionStatus;
}.

Module PaymentService.

(** The foreign keys of [transactions]. *)
Definition references_ok (s : Store) (row : TransactionRow) : bool :=
  bool_decide (is_Some (matches s !! t_match_id row))
  && bool_decide (is_Some (agents s !! t_requester_id row))
  && bool_decide (is_Some (agents s !! t_provider_id row)).

(** The row as the table keeps it: [amount] is a [DECIMAL(18,8)]. *)
Definition stored (env : Env) (row : TransactionRow) : TransactionRow :=
  {| t_id := t_id row; t_match_id := t_match_id row;
     t_requester_id := t_requester_id row; t_provider_id := t_provider_id row;
     t_amount := numeric_18_8 env (t_amount row); t_currency := t_currency row;
     t_status := t_status row; t_payment_method := t_payment_method row;
     t_transaction_hash := t_transaction_hash row;
     t_created_at := t_created_at row; t_updated_at := t_updated_at row |}.

(** [INSERT INTO transactions (id, match_id, requester_id, provider_id,
    amount, currency, status, payment_method, created_at, updated_at)]:
    the amount is converted to its column type, then the keys are
    checked. *)
Definition insert_transaction (env : Env) (row : TransactionRow) : M unit :=
  w ← get_world;
  if negb (Sql.numeric_18_8_accepts (t_amount row))
  then throw "numeric field overflow"
  else if bool_decide (is_Some (transactions (db w) !! t_id row))
  then throw "duplicate key value violates unique constraint transactions_pkey"
  else if negb (references_ok (db w) row)
  then throw "insert or update on table transactions violates foreign key constraint"
  else modify (set_db (set_transactions <[t_id row := stored env row]>)).

Definition with_status (st : TransactionStatus) (hash : option string) (t : Z)
    (row : TransactionRow) : TransactionRow :=
  {| t_id := t_id row; t_match_id := t_match_id row;
     t_requester_id := t_requester_id row; t_provider_id := t_provider_id row;
     t_amount := t_amount row; t_currency := t_currency row;
     t_status := st; t_payment_method := t_payment_method row;
     t_transaction_hash := hash;
     t_created_at := t_created_at row; t_updated_at := t |}.

(** [UPDATE transactions SET status = .., updated_at = NOW() WHERE id = ..] *)
Definition update_status (id : string) (st : TransactionStatus) : M unit :=
  exec (fun t => set_transactions
          (alter (fun row => with_status st (t_transaction_hash row) t row) id)).

Definition createPaymentIntent (env : Env) (matchId : string) (amount : number)
    (requesterId providerId : string) : M PaymentData :=
  catch_rewrap "Payment intent creation failed: " (
    let params :=
      PaymentIntentsCreate (Js.Math_round (amount * 100)%float) "usd"
        matchId requesterId providerId
        ("Whalen Protocol - Compute Match " ++ matchId) in
    paymentIntent ← stripe_call
                      (fun calls => stripe_paymentIntents_create env calls params) params;
    (* Store transaction record in database *)
    transactionId ← draw_uuid env;
    w ← get_world;
    insert_transaction env
      {| t_id := transactionId; t_match_id := matchId;
         t_requester_id := requesterId; t_provider_id := providerId;
         t_amount := amount; t_currency := "USD"; t_status := TxPending;
         t_payment_method := Some "stripe"; t_transaction_hash := None;
         t_created_at := now w; t_updated_at := now w |};;
    mret {| pd_transactionId := transactionId;
            pd_paymentIntentId := pi_id paymentIntent;
            pd_clientSecret := pi_client_secret paymentIntent;
            pd_amount := amount; pd_status := TxPending |}).

Definition confirmPayment (env : Env) (paymentIntentId transactionId : string)
    : M TransactionRow :=
  catch_rewrap "Payment confirmation failed: " (
    paymentIntent ← stripe_call
                      (fun calls => stripe_paymentIntents_retrieve env calls paymentIntentId)
                      (PaymentIntentsRetrieve paymentIntentId);
    if negb (String.eqb (pi_status paymentIntent) "succeeded")
    then throw ("Payment not succeeded. Status: " ++ pi_status paymentIntent)
    else
      (* Update transaction to escrowed *)
      exec (fun t => set_transactions
              (alter (with_status Escrowed (Some (pi_id paymentIntent)) t)
                     transactionId));;
      result ← query (fun s => transactions s !! transactionId);
      match result with
      | None => throw "Transaction not found"
      | Some row => mret row
      end).

Definition releasePayment (env : Env) (transactionId : string) (verified : bool)
    : M (option TransactionRow) :=
  catch_rewrap "Payment release failed: " (
    if negb verified then
      (* Refund to requester *)
      transaction ← query (fun s => transactions s !! transactionId);
      match transaction with
      | None => throw "Transaction not found"
      | Some row =>
          let paymentIntentId := t_transaction_hash row in
          stripe_call (fun calls => stripe_refunds_create env calls paymentIntentId)
                      (RefundsCreate paymentIntentId);;
          update_status transactionId Refunded;;
          query (fun s => transactions s !! transactionId)
      end
    else
      (* Mark as settled *)
      update_status transactionId Settled;;
      result ← query (fun s => transactions s !! transactionId);
      match result with
      | None => throw "Transaction not found"
      | Some row => mret (Some row)
      end).

(** A row of [getAgentTransactions]: [SELECT t.*, m.agreed_price_per_hour,
    cr.duration_hours, a1.name as requester_name, a2.name as
    provider_name]. *)
Record TransactionDetails := {
  td_transaction : TransactionRow;
  td_agreed_price_per_hour : number;
  td_duration_hours : number;
  td_requester_name : string;
  td_provider_name : string;
}.

(** [FROM transactions t JOIN matches m .. JOIN compute_requests cr ..
    JOIN agents a1 .. JOIN agents a2 ..] *)
Definition join_details (s : Store) (t : TransactionRow) : option TransactionDetails :=
  m ← matches s !! t_match_id t;
  cr ← compute_requests s !! m_request_id m;
  a1 ← agents s !! t_requester_id t;
  a2 ← agents s !! t_provider_id t;
  Some {| td_transaction := t;
          td_agreed_price_per_hour := m_agreed_price_per_hour m;
          td_duration_hours := cr_duration_hours cr;
          td_requester_name := a_name a1; td_provider_name := a_name a2 |}.

(** The [WHERE] clause chosen by [role]. *)
Definition role_clause (agentId : string) (role : option string) (t : TransactionRow)
    : bool :=
  if bool_decide (role = Some "requester") then String.eqb (t_requester_id t) agentId
  else if bool_decide (role = Some "provider") then String.eqb (t_provider_id t) agentId
  else String.eqb (t_requester_id t) agentId || String.eqb (t_provider_id t) agentId.

(** [ORDER BY t.created_at DESC] *)
Definition created_desc_before (x y : TransactionDetails) : bool :=
  (t_created_at (td_transaction y) <? t_created_at (td_transaction x))%Z.

Definition getAgentTransactions (agentId : string) (role : option string)
    : M (list TransactionDetails) :=
  catch_rewrap "Failed to retrieve transactions: " (
    query (fun s =>
      sort_by created_desc_before
        (List.filter (fun d => role_clause agentId role (td_transaction d))
           (omap (fun kv => join_details s (snd kv))
                 (map_to_list (transactions s)))))).

End PaymentService.

(** ** [services/VerificationService.js] *)

Module VerificationService.

(** A pure computation that may throw, inside effectful code. *)
Definition of_result {A} (r : result A) : M A := fun w => (r, w).

(** The foreign keys of [verifications]; [verifier_id] may be [NULL]. *)
Definition references_ok (s : Store) (row : VerificationRow) : bool :=
  bool_decide (is_Some (transactions s !! v_transaction_id row))
  && match v_verifier_id row with
     | Some a => bool_decide (is_Some (agents s !! a))
     | None => true
     end.

(** [INSERT INTO verifications (..) VALUES (..) RETURNING *] *)
Definition insert_verification (row : VerificationRow) : M VerificationRow :=
  w ← get_world;
  if bool_decide (is_Some (verifications (db w) !! v_id row))
  then throw "duplicate key value violates unique constraint verifications_pkey"
  else if negb (references_ok (db w) row)
  then throw "insert or update on table verifications violates foreign key constraint"
  else modify (set_db (set_verifications <[v_id row := row]>));; mret row.

(** [SELECT * FROM transactions WHERE id = .. AND provider_id = ..] *)
Definition transaction_of_provider (transactionId providerId : string) (s : Store)
    : option TransactionRow :=
  t ← transactions s !! transactionId;
  if String.eqb (t_provider_id t) providerId then Some t else None.

Section ProofHash.

(** The payload, [JSON.stringify] on it ([None] for [undefined]) and
    the hexadecimal SHA-256 digest are the platform's.  [jsonb_in] is
    the input conversion of a [JSONB] column: the text it keeps of a
    JSON text, with the keys of every object reordered and made unique,
    or the error it raises. *)
Context {ProofData : Type}.
Variable JSON_stringify : ProofData -> option string.
Variable sha256_hex : string -> string.
Variable jsonb_in : string -> result string.

(** [crypto.createHash('sha256').update(dataString).digest('hex')];
    [update] refuses [undefined]. *)
Definition generateProofHash (proofData : ProofData) : result string :=
  match JSON_stringify proofData with
  | Some dataString => Ok (sha256_hex dataString)
  | None => Throw "The data argument must be of type string or an instance of Buffer, TypedArray, or DataView. Received undefined"
  end.

Definition verifyProofHash (proofHash : string) (proofData : ProofData) : result bool :=
  match generateProofHash proofData with
  | Ok calculatedHash => Ok (String.eqb proofHash calculatedHash)
  | Throw e => Throw e
  end.

(** What the [JSONB] column [proof_data] keeps of
    [JSON.stringify(proofData)]. *)
Definition proof_data_in (text : option string) : result (option string) :=
  match text with
  | Some text =>
      match jsonb_in text with
      | Ok kept => Ok (Some kept)
      | Throw e => Throw e
      end
  | None => Ok None
  end.

(** [proof_hash] is a [VARCHAR(255)], [proof_data] a [JSONB]: the
    values are converted before the keys are checked. *)
Definition submitProof (env : Env) (transactionId providerId : string)
    (proofData : ProofData) : M VerificationRow :=
  catch_rewrap "Proof submission failed: " (
    verificationId ← draw_uuid env;
    proofHash ← of_result (generateProofHash proofData);
    (* Verify transaction exists and belongs to provider *)
    transaction ← query (transaction_of_provider transactionId providerId);
    match transaction with
    | None => throw "Transaction not found or unauthorized"
    | Some _ =>
        (* Create verification record *)
        w ← get_world;
        if negb (Sql.varchar_accepts 255 proofHash)
        then throw "value too long for type character varying(255)"
        else
          kept ← of_result (proof_data_in (JSON_stringify proofData));
          insert_verification
            {| v_id := verificationId; v_transaction_id := transactionId;
               v_verifier_id := Some providerId; v_proof_hash := Some proofHash;
               v_proof_data := kept; v_verified := false;
               v_notes := None; v_created_at := now w; v_updated_at := now w |}
    end).

End ProofHash.

Definition decide_verification (approved : bool) (verifierId notes : string) (t : Z)
    (row : VerificationRow) : VerificationRow :=
  {| v_id := v_id row; v_transaction_id := v_transaction_id row;
     v_verifier_id := Some verifierId; v_proof_hash := v_proof_hash row;
     v_proof_data := v_proof_data row; v_verified := approved;
     v_notes := Some notes;
     v_created_at := v_created_at row; v_updated_at := t |}.

(** [UPDATE verifications SET verified = .., verifier_id = .., notes = ..,
    updated_at = NOW() WHERE id = .. RETURNING *]; [verifier_id]
    references [agents]. *)
Definition update_verification (id : string) (approved : bool)
    (verifierId notes : string) : M (option VerificationRow) :=
  w ← get_world;
  if bool_decide (is_Some (verifications (db w) !! id))
     && negb (bool_decide (is_Some (agents (db w) !! verifierId)))
  then throw "insert or update on table verifications violates foreign key constraint"
  else
    exec (fun t => set_verifications
            (alter (decide_verification approved verifierId notes t) id));;
    query (fun s => verifications s !! id).

Definition verifyWork (verificationId verifierId : string) (approved : bool)
    (notes : string) : M (option VerificationRow) :=
  catch_rewrap "Work verification failed: " (
    (* Get verification record *)
    verification ← query (fun s => verifications s !! verificationId);
    match verification with
    | None => throw "Verification not found"
    | Some verif =>
        (* Update verification *)
        result ← update_verification verificationId approved verifierId notes;
        (if approved then
           PaymentService.update_status (v_transaction_id verif) Verified;;
           (* Update match status *)
           transaction ← query (fun s => transactions s !! v_transaction_id verif);
           match transaction with
           | Some row =>
               exec (fun t => set_matches
                       (alter (fun m => Match.touch t (Match.assign m (Match.SetStatus Completed)))
                              (t_match_id row)))
           | None => mret tt
           end
         else mret tt);;
        mret result
    end).

(** A row of [getPendingVerifications]: [SELECT v.*, t.amount, t.status as
    transaction_status, a1.name as provider_name, cr.gpu_count,
    cr.gpu_type, cr.duration_hours]. *)
Record PendingVerification := {
  pv_verification : VerificationRow;
  pv_amount : number;
  pv_transaction_status : TransactionStatus;
  pv_provider_name : string;
  pv_gpu_count : number;
  pv_gpu_type : string;
  pv_duration_hours : number;
}.

(** The condition of the join with [compute_requests]:
    [t.match_id = (SELECT request_id FROM matches WHERE id = (SELECT
    match_id FROM transactions WHERE id = v.transaction_id))], where the
    inner row is [t] itself, joined [ON v.transaction_id = t.id].  It does
    not mention [cr]. *)
Definition on_compute_requests (s : Store) (t : TransactionRow) : bool :=
  match matches s !! t_match_id t with
  | Some m => String.eqb (t_match_id t) (m_request_id m)
  | None => false
  end.

(** The joined rows that one verification contributes. *)
Definition pending_rows_of (agentId : string) (s : Store) (v : VerificationRow)
    : list PendingVerification :=
  match transactions s !! v_transaction_id v with
  | None => []
  | Some t =>
      match agents s !! t_provider_id t with
      | None => []
      | Some a1 =>
          if negb (v_verified v) && String.eqb (t_requester_id t) agentId
             && on_compute_requests s t
          then map (fun kv =>
                      {| pv_verification := v; pv_amount := t_amount t;
                         pv_transaction_status := t_status t;
                         pv_provider_name := a_name a1;
                         pv_gpu_count := cr_gpu_count (snd kv);
                         pv_gpu_type := cr_gpu_type (snd kv);
                         pv_duration_hours := cr_duration_hours (snd kv) |})
                   (map_to_list (compute_requests s))
          else []
      end
  end.

(** [ORDER BY v.created_at ASC] *)
Definition created_asc_before (x y : PendingVerification) : bool :=
  (v_created_at (pv_verification x) <? v_created_at (pv_verification y))%Z.

Definition getPendingVerifications (agentId : string) : M (list PendingVerification) :=
  catch_rewrap "Failed to retrieve pending verifications: " (
    query (fun s =>
      sort_by created_asc_before
        (flat_map (fun kv => pending_rows_of agentId s (snd kv))
                  (map_to_list (verifications s))))).

(** [stringify_dispute reason] is the text of
    [JSON.stringify({ type: 'dispute', reason })]. *)
Definition createDispute (env : Env) (stringify_dispute : string -> string)
    (transactionId initiatorId reason : string) : M VerificationRow :=
  catch_rewrap "Dispute creation failed: " (
    disputeId ← draw_uuid env;
    (* Verify transaction exists *)
    transaction ← query (fun s => transactions s !! transactionId);
    match transaction with
    | None => throw "Transaction not found"
    | Some _ =>
        w ← get_world;
        insert_verification
          {| v_id := disputeId; v_transaction_id := transactionId;
             v_verifier_id := Some initiatorId; v_proof_hash := None;
             v_proof_data := Some (stringify_dispute reason); v_verified := false;
             v_notes := Some ("Dispute initiated by " ++ initiatorId ++ ": " ++ reason);
             v_created_at := now w; v_updated_at := now w |}
    end).

Definition resolve (resolution notes : string) (t : Z) (row : VerificationRow)
    : VerificationRow :=
  {| v_id := v_id row; v_transaction_id := v_transaction_id row;
     v_verifier_id := v_verifier_id row; v_proof_hash := v_proof_hash row;
     v_proof_data := v_proof_data row;
     v_verified := String.eqb resolution "approved";
     v_notes := Some notes;
     v_created_at := v_created_at row; v_updated_at := t |}.

Definition resolveDispute (verificationId resolution notes : string)
    : M VerificationRow :=
  catch_rewrap "Dispute resolution failed: " (
    exec (fun t => set_verifications (alter (resolve resolution notes t) verificationId));;
    result ← query (fun s => verifications s !! verificationId);
    match result with
    | None => throw "Dispute not found"
    | Some row => mret row
    end).

End VerificationService.

(** ** Match and request routes *)

Record HttpResponse (A : Type) := {
  http_status : Z;
  http_body : Envelope A;
}.
Arguments http_status {A} _.
Arguments http_body {A} _.

Module MatchRoutes.

(** The [catch] shared by the accept and complete handlers. *)
Definition unauthorized_or_500 {A} (message : string) (t : Z) : HttpResponse A :=
  let statusCode := if includes "Unauthorized" message then 403%Z else 500%Z in
  {| http_status := statusCode;
     http_body := formatError message statusCode (Some message) t |}.

(** [POST /api/v1/matches/:matchId/accept], once [authenticateAgent] has
    set [req.agentId]. *)
Definition accept (matchId agentId : string)
    : World -> HttpResponse (option MatchRow) * World :=
  fun w =>
    match MatchingService.acceptMatch matchId agentId w with
    | (Ok match_, w') =>
        ({| http_status := 200;
            http_body := formatResponse match_ "Match accepted successfully" 200 (now w') |},
         w')
    | (Throw message, w') => (unauthorized_or_500 message (now w'), w')
    end.

(** [POST /api/v1/matches/:matchId/complete] *)
Definition complete (matchId agentId : string)
    : World -> HttpResponse (option MatchRow) * World :=
  fun w =>
    match MatchingService.completeMatch matchId agentId w with
    | (Ok match_, w') =>
        ({| http_status := 200;
            http_body := formatResponse match_ "Match completed successfully" 200 (now w') |},
         w')
    | (Throw message, w') => (unauthorized_or_500 message (now w'), w')
    end.

(** [POST /api/v1/matches/:matchId/cancel] *)
Definition cancel (matchId agentId : string)
    : World -> HttpResponse (option MatchRow) * World :=
  fun w =>
    match MatchingService.cancelMatch matchId agentId w with
    | (Ok match_, w') =>
        ({| http_status := 200;
            http_body := formatResponse match_ "Match cancelled successfully" 200 (now w') |},
         w')
    | (Throw message, w') =>
        ({| http_status := 500;
            http_body := formatError "Failed to cancel match" 500 (Some message) (now w') |},
         w')
    end.

End MatchRoutes.

Module RequestRoutes.

(** [POST /api/v1/requests/:requestId/auto-match] *)
Definition auto_match (env : Env) (requestId agentId : string)
    : World -> HttpResponse MatchRow * World :=
  fun w =>
    match ComputeRequest.findById requestId (db w) with
    | None =>
        ({| http_status := 404;
            http_body := formatError "Request not found" 404 None (now w) |}, w)
    | Some request =>
        if negb (String.eqb (cr_requester_id request) agentId)
        then ({| http_status := 403;
                 http_body := formatError "Unauthorized" 403 None (now w) |}, w)
        else
          match MatchingService.autoMatch env requestId w with
          | (Ok None, w') =>
              ({| http_status := 404;
                  http_body := formatError "No matching providers found" 404 None (now w') |},
               w')
          | (Ok (Some match_), w') =>
              ({| http_status := 201;
                  http_body := formatResponse match_ "Request auto-matched successfully"
                                 201 (now w') |},
               w')
          | (Throw message, w') =>
              ({| http_status := 500;
                  http_body := formatError "Failed to auto-match request" 500
                                 (Some message) (now w') |},
               w')
          end
    end.

End RequestRoutes.

(** ** The match score as the specification states it *)

(** 100, plus 20 or minus 30 for the GPU count, plus the price bonus or
    minus 40, plus 15 or minus 20 for the available hours, plus twice the
    reputation, which is 5 only when absent; floored at 0. *)
Definition stated_score (request : ReqQuery) (capability : CapabilityView) : number :=
  let reputation :=
    match cv_reputation_score capability with Some r => r | None => 5%float end in
  let gpu (s : number) :=
    if (rq_gpu_count request <=? cv_gpu_count capability)%float
    then (s + 20)%float else (s - 30)%float in
  let price (s : number) :=
    if (cv_price_per_hour capability <=? rq_max_price_per_hour request)%float
    then (s + (1 - cv_price_per_hour capability / rq_max_price_per_hour request) * 20)%float
    else (s - 40)%float in
  let hours (s : number) :=
    if (rq_duration_hours request <=? cv_available_hours capability)%float
    then (s + 15)%float else (s - 20)%float in
  Js.Math_max 0%float (hours (price (gpu 100%float)) + reputation * 2)%float.

(** ** The discovery filter as the specification states it *)

(** A request's region is unset when the property is absent or is the
    empty string, which [region || null] and [if (region)] treat alike. *)
Definition region_unset (r : option string) : Prop := r = None \/ r = Some "".

Definition stated_filter (request : ReqQuery) (pc : CapabilityRow) : Prop :=
  pc_availability_status pc = Available
  /\ pc_gpu_type pc = rq_gpu_type request
  /\ (rq_gpu_count request <=? pc_gpu_count pc)%float = true
  /\ (pc_price_per_hour pc <=? rq_max_price_per_hour request)%float = true
  /\ (region_unset (rq_region request) \/ pc_region pc = rq_region request).

(** The capability is a row of the table. *)
Definition listed (s : Store) (pc : CapabilityRow) : Prop :=
  exists k, provider_capabilities s !! k = Some pc.

(** The capability is among the ranked candidates. *)
Definition appears (pc : CapabilityRow) (found : list ScoredProvider) : Prop :=
  pc ∈ (fun sp => hit_capability (sp_provider sp)) <$> found.

(** Every capability's provider is a row of [agents]
    ([provider_id UUID NOT NULL REFERENCES agents(id)]). *)
Definition capabilities_reference_agents (s : Store) : Prop :=
  map_Forall (fun _ pc => is_Some (agents s !! pc_provider_id pc))
             (provider_capabilities s).

(** ** Counting refunds

    The number of refund calls in a log of processor calls. *)
Definition is_refund (c : StripeCall) : bool :=
  match c with RefundsCreate _ => true | _ => false end.

Definition refund_calls (calls : list StripeCall) : nat :=
  length (List.filter is_refund calls).

(** The status of a transaction in a world. *)
Definition status_of (id : string) (w : World) : option TransactionStatus :=
  t_status <$> transactions (db w) !! id.

(** ** Frames

    What a lifecycle operation on [matchId] may have changed between [w]
    and [w']: the row of that match and the row of its request, nothing
    else. *)
Definition lifecycle_frame (matchId : string) (w w' : World) : Prop :=
  agents (db w') = agents (db w)
  /\ provider_capabilities (db w') = provider_capabilities (db w)
  /\ transactions (db w') = transactions (db w)
  /\ verifications (db w') = verifications (db w)
  /\ stripe_calls w' = stripe_calls w
  /\ uuid_drawn w' = uuid_drawn w
  /\ (forall k, k <> matchId -> matches (db w') !! k = matches (db w) !! k)
  /\ (forall k, (forall m, matches (db w) !! matchId = Some m -> k <> m_request_id m) ->
        compute_requests (db w') !! k = compute_requests (db w) !! k).

(** Every capability is stored under its own id. *)
Definition capabilities_keyed_by_id (s : Store) : Prop :=
  map_Forall (fun k pc => pc_id pc = k) (provider_capabilities s).

(** ** Sample data *)

Module Sample.

Definition alice : AgentRow :=
  {| a_id := "alice"; a_name := "Alice"; a_type := "requester";
     a_reputation_score := Some 5%float; a_uptime_percentage := Some 100%float |}.

Definition bob : AgentRow :=
  {| a_id := "bob"; a_name := "Bob"; a_type := "provider";
     a_reputation_score := Some 4.8%float; a_uptime_percentage := Some 100%float |}.

Definition carol : AgentRow :=
  {| a_id := "carol"; a_name := "Carol"; a_type := "provider";
     a_reputation_score := Some 5%float; a_uptime_percentage := Some 99%float |}.

Definition cap (id provider : string) (price hours : number) (st : AvailabilityStatus)
    : CapabilityRow :=
  {| pc_id := id; pc_provider_id := provider; pc_gpu_count := 8%float;
     pc_gpu_type := "H100"; pc_cpu_cores := 64%float; pc_memory_gb := 512%float;
     pc_price_per_hour := price; pc_available_hours := hours;
     pc_region := Some "us-east-1"; pc_availability_status := st |}.

Definition req1 : ComputeRequestRow :=
  {| cr_id := "req1"; cr_requester_id := "alice"; cr_gpu_count := 8%float;
     cr_gpu_type := "H100"; cr_duration_hours := 2%float;
     cr_max_price_per_hour := 50%float; cr_status := ReqPending;
     cr_description := None; cr_updated_at := 0 |}.

(** A request no listed capability can serve. *)
Definition req2 : ComputeRequestRow :=
  {| cr_id := "req2"; cr_requester_id := "alice"; cr_gpu_count := 8%float;
     cr_gpu_type := "A100"; cr_duration_hours := 2%float;
     cr_max_price_per_hour := 50%float; cr_status := ReqPending;
     cr_description := None; cr_updated_at := 0 |}.

Definition match1 (st : MatchStatus) : MatchRow :=
  {| m_id := "match1"; m_request_id := "req1"; m_provider_id := "bob";
     m_capability_id := Some "capA"; m_agreed_price_per_hour := 45.5%float;
     m_status := st; m_start_time := None; m_end_time := None;
     m_created_at := 0; m_updated_at := 0 |}.

Definition store0 : Store :=
  {| agents := <["alice" := alice]> (<["bob" := bob]> (<["carol" := carol]> ∅));
     provider_capabilities :=
       <["capA" := cap "capA" "bob" 45.5%float 100%float Available]>
         (<["capB" := cap "capB" "carol" 49%float 1%float Available]> ∅);
     compute_requests := <["req1" := req1]> (<["req2" := req2]> ∅);
     matches := ∅; transactions := ∅; verifications := ∅ |}.

Definition world_of (s : Store) : World :=
  {| db := s; stripe_calls := []; uuid_drawn := 0; now := 1000 |}.

Definition with_match (st : MatchStatus) : World :=
  world_of (set_matches <["match1" := match1 st]> store0).

Definition details1 (st : MatchStatus) : MatchDetails :=
  {| md_match := match1 st; md_gpu_count := 8%float;
     md_duration_hours := 2%float; md_gpu_type := "H100";
     md_provider_name := "Bob"; md_reputation_score := Some 4.8%float |}.

(** Rounding to eight decimals, half away from zero, computed in
    binary64: it keeps the amounts and prices of the samples, which have
    at most eight decimals, as they are. *)
Definition round8 (x : number) : number :=
  if Js.isNaN x then x
  else
    let y := (Js.Math_floor (abs x * 100000000 + 0.5) / 100000000)%float in
    if (x <? 0)%float then (- y)%float else y.

(** A processor that accepts every hold, reports every intent as paid
    and grants every refund. *)
Definition intent (status : string) : PaymentIntent :=
  {| pi_id := "pi_1"; pi_client_secret := "pi_1_secret"; pi_status := status |}.

Definition env : Env :=
  {| uuidv4 := fun n => "uuid-" ++ pretty n;
     numeric_18_8 := round8;
     stripe_paymentIntents_create := fun _ _ => Ok (intent "requires_payment_method");
     stripe_paymentIntents_retrieve := fun _ _ => Ok (intent "succeeded");
     stripe_refunds_create := fun _ _ => Ok tt |}.


Definition pending_row : TransactionRow :=
  {| t_id := "uuid-0"; t_match_id := "match1"; t_requester_id := "alice";
     t_provider_id := "bob"; t_amount := 91%float; t_currency := "USD";
     t_status := TxPending; t_payment_method := Some "stripe";
     t_transaction_hash := None; t_created_at := 1000; t_updated_at := 1000 |}.

Definition escrowed_row : TransactionRow :=
  PaymentService.with_status Escrowed (Some "pi_1") 1000 pending_row.

(** The world after the hold for [match1] was opened and confirmed. *)
Definition escrowed_world : World :=
  {| db := set_transactions <["uuid-0" := escrowed_row]> (db (with_match Accepted));
     stripe_calls :=
       [PaymentIntentsCreate 9100%float "usd" "match1" "alice" "bob"
          "Whalen Protocol - Compute Match match1";
        PaymentIntentsRetrieve "pi_1"];
     uuid_drawn := 1; now := 1000 |}.

Definition proof_row : VerificationRow :=
  {| v_id := "ver1"; v_transaction_id := "uuid-0"; v_verifier_id := Some "bob";
     v_proof_hash := Some "9f2c"; v_proof_data := Some "{}";
     v_verified := false; v_notes := None;
     v_created_at := 1000; v_updated_at := 1000 |}.

(** The escrowed world once the provider has submitted a proof. *)
Definition proved_world : World :=
  set_db (set_verifications <["ver1" := proof_row]>) escrowed_world.

(** A processor that refuses every hold and every refund, and reports
    every intent as unpaid. *)
Definition refusing_env : Env :=
  {| uuidv4 := fun n => "uuid-" ++ pretty n;
     numeric_18_8 := round8;
     stripe_paymentIntents_create := fun _ _ => Throw "Your card was declined.";
     stripe_paymentIntents_retrieve := fun _ _ => Ok (intent "requires_payment_method");
     stripe_refunds_create := fun _ _ => Throw "Charge has already been refunded." |}.

(** The request and the capability A of the scoring scenario. *)
Definition scenario_request : ReqQuery :=
  {| rq_gpu_count := 8%float; rq_gpu_type := "H100"; rq_duration_hours := 2%float;
     rq_max_price_per_hour := 50%float; rq_region := None |}.

Definition capability_A (reputation : option number) : CapabilityView :=
  {| cv_gpu_count := 8%float; cv_price_per_hour := 45.5%float;
     cv_available_hours := 100%float; cv_reputation_score := reputation |}.

(** A store keyed by UUIDs: Ann's request is matched with Ben's
    capability [c1], the payment is in escrow and Ben has submitted a
    proof; [c2] is a capability of Ben's that no match refers to. *)
Definition uuid (n : string) : string := "00000000-0000-4000-8000-0000000000" ++ n.

Definition ann : AgentRow :=
  {| a_id := uuid "a1"; a_name := "Ann"; a_type := "requester";
     a_reputation_score := Some 5%float; a_uptime_percentage := Some 100%float |}.

Definition ben : AgentRow :=
  {| a_id := uuid "a2"; a_name := "Ben"; a_type := "provider";
     a_reputation_score := Some 4.8%float; a_uptime_percentage := Some 100%float |}.

Definition ureq : ComputeRequestRow :=
  {| cr_id := uuid "41"; cr_requester_id := uuid "a1"; cr_gpu_count := 8%float;
     cr_gpu_type := "H100"; cr_duration_hours := 2%float;
     cr_max_price_per_hour := 50%float; cr_status := ReqInProgress;
     cr_description := None; cr_updated_at := 0 |}.

Definition umatch : MatchRow :=
  {| m_id := uuid "51"; m_request_id := uuid "41"; m_provider_id := uuid "a2";
     m_capability_id := Some (uuid "c1"); m_agreed_price_per_hour := 45.5%float;
     m_status := Accepted; m_start_time := Some 0%Z; m_end_time := None;
     m_created_at := 0; m_updated_at := 0 |}.

Definition utx : TransactionRow :=
  {| t_id := uuid "71"; t_match_id := uuid "51"; t_requester_id := uuid "a1";
     t_provider_id := uuid "a2"; t_amount := 91%float; t_currency := "USD";
     t_status := Escrowed; t_payment_method := Some "stripe";
     t_transaction_hash := Some "pi_1"; t_created_at := 500; t_updated_at := 600 |}.

Definition uproof : VerificationRow :=
  {| v_id := uuid "e1"; v_transaction_id := uuid "71"; v_verifier_id := Some (uuid "a2");
     v_proof_hash := Some "9f2c"; v_proof_data := Some "{}";
     v_verified := false; v_notes := None;
     v_created_at := 700; v_updated_at := 700 |}.

Definition ustore : Store :=
  {| agents := <[uuid "a1" := ann]> (<[uuid "a2" := ben]> ∅);
     provider_capabilities :=
       <[uuid "c1" := cap (uuid "c1") (uuid "a2") 45.5%float 100%float Available]>
         (<[uuid "c2" := cap (uuid "c2") (uuid "a2") 49%float 1%float Available]> ∅);
     compute_requests := <[uuid "41" := ureq]> ∅;
     matches := <[uuid "51" := umatch]> ∅;
     transactions := <[uuid "71" := utx]> ∅;
     verifications := <[uuid "e1" := uproof]> ∅ |}.

Definition uworld : World := world_of ustore.

End Sample.


(** * Properties *)

(** ** Running the effectful code *)

Ltac run :=
  unfold catch_rethrow, catch_rewrap, stripe_call, draw_uuid,
    mbind, M_bind, bind, mret, M_ret, ret, query, exec, throw,
    get_world, modify in *;
  simpl in *.

Lemma eqb_string_refl (s : string) : String.eqb s s = true.
Proof. apply String.eqb_refl. Qed.

Lemma findById_match (id : string) (s : Store) (md : MatchDetails) :
  Match.findById id s = Some md -> matches s !! id = Some (md_match md).
Proof.
  unfold Match.findById. intros H.
  destruct (matches s !! id) as [m|]; simpl in H; [|discriminate].
  destruct (compute_requests s !! m_request_id m) as [cr|]; simpl in H; [|discriminate].
  destruct (agents s !! m_provider_id m) as [a|]; simpl in H; [|discriminate].
  inversion H; reflexivity.
Qed.

(** Under the foreign keys of [matches], a match row is always found. *)
Lemma findById_of_row (id : string) (s : Store) (m : MatchRow) :
  matches s !! id = Some m ->
  is_Some (compute_requests s !! m_request_id m) ->
  is_Some (agents s !! m_provider_id m) ->
  exists md, Match.findById id s = Some md /\ md_match md = m.
Proof.
  intros Hm [cr Hcr] [a Ha]. unfold Match.findById.
  rewrite Hm; simpl. rewrite Hcr; simpl. rewrite Ha; simpl.
  eexists; split; reflexivity.
Qed.

(** What [Match.update] does with at least one assignment. *)
Lemma Match_update_spec (id : string) (u : Match.Assignment)
    (us : list Match.Assignment) (w : World) (m : MatchRow) :
  matches (db w) !! id = Some m ->
  let m' := Match.touch (now w) (fold_left Match.assign (u :: us) m) in
  let w' := set_db (set_matches (alter (fun row =>
              Match.touch (now w) (fold_left Match.assign (u :: us) row)) id)) w in
  Match.update id (u :: us) w = (Ok (Some m'), w')
  /\ matches (db w') !! id = Some m'.
Proof.
  intros Hm m' w'. unfold Match.update. run.
  assert (matches (db w') !! id = Some m') as E.
  { subst w'. simpl. rewrite lookup_alter_eq, Hm. reflexivity. }
  split; [|exact E]. subst w'. simpl in *. rewrite E. reflexivity.
Qed.

(** ** Match lifecycle *)

(** C1, as stated, fails: a provider accepts a match that is already
    [completed], and completes one that is still [proposed]; neither call
    fails with a conflict. *)
Lemma accept_complete_ignore_prior_status :
  (m_status <$> matches (db (Sample.with_match Completed)) !! "match1" = Some Completed
   /\ exists m', fst (MatchingService.acceptMatch "match1" "bob"
                        (Sample.with_match Completed)) = Ok (Some m')
                 /\ m_status m' = Accepted)
  /\ (m_status <$> matches (db (Sample.with_match Proposed)) !! "match1" = Some Proposed
      /\ exists m', fst (MatchingService.completeMatch "match1" "bob"
                           (Sample.with_match Proposed)) = Ok (Some m')
                    /\ m_status m' = Completed).
Proof.
  split; (split; [vm_compute; reflexivity|]); eexists; split; vm_compute; reflexivity.
Qed.

(** C1, amended: for every match found by [Match.findById], whatever its
    status, [acceptMatch] and [completeMatch] succeed exactly when the
    caller is the match's provider, leaving the match [accepted],
    respectively [completed]; with any other caller they fail with the
    Unauthorized error and change nothing.  The prior status is never read
    and no conflict error exists. *)
Theorem accept_complete_check_provider_only
    (w : World) (matchId caller : string) (md : MatchDetails) :
  Match.findById matchId (db w) = Some md ->
  (caller = m_provider_id (md_match md) ->
     (exists m' w', MatchingService.acceptMatch matchId caller w = (Ok (Some m'), w')
                    /\ m_status m' = Accepted
                    /\ matches (db w') !! matchId = Some m')
     /\ (exists m' w', MatchingService.completeMatch matchId caller w = (Ok (Some m'), w')
                       /\ m_status m' = Completed
                       /\ matches (db w') !! matchId = Some m'))
  /\ (caller <> m_provider_id (md_match md) ->
        MatchingService.acceptMatch matchId caller w
          = (Throw "Unauthorized: Only the provider can accept this match", w)
        /\ MatchingService.completeMatch matchId caller w
          = (Throw "Unauthorized: Only the provider can complete this match", w)).
Proof.
  intros Hfind. pose proof (findById_match _ _ _ Hfind) as Hm. split.
  - intros ->. split.
    + destruct (Match_update_spec matchId (Match.SetStatus Accepted)
                  [Match.SetStartTime (now w)] w _ Hm) as [Hu Hl].
      unfold MatchingService.acceptMatch, ComputeRequest.update.
      unfold catch_rethrow, mbind, M_bind, bind, query at 1, get_world.
      rewrite Hfind, eqb_string_refl. cbn [negb]. cbv beta iota. rewrite Hu.
      run. do 2 eexists. split; [reflexivity|]. split; [reflexivity|].
      simpl. rewrite lookup_alter_eq, Hm. reflexivity.
    + destruct (Match_update_spec matchId (Match.SetStatus Completed)
                  [Match.SetEndTime (now w)] w _ Hm) as [Hu Hl].
      unfold MatchingService.completeMatch, ComputeRequest.update.
      unfold catch_rethrow, mbind, M_bind, bind, query at 1, get_world.
      rewrite Hfind, eqb_string_refl. cbn [negb]. cbv beta iota. rewrite Hu.
      run. do 2 eexists. split; [reflexivity|]. split; [reflexivity|].
      simpl. rewrite lookup_alter_eq, Hm. reflexivity.
  - intros Hne.
    assert (String.eqb (m_provider_id (md_match md)) caller = false) as E.
    { apply String.eqb_neq. congruence. }
    unfold MatchingService.acceptMatch, MatchingService.completeMatch.
    unfold catch_rethrow, mbind, M_bind, bind, query, throw.
    rewrite Hfind, E. split; reflexivity.
Qed.

Lemma accept_complete_check_provider_only_witness :
  Match.findById "match1" (db (Sample.with_match Completed))
    = Some (Sample.details1 Completed)
  /\ exists m' w', MatchingService.acceptMatch "match1" "bob" (Sample.with_match Completed)
                     = (Ok (Some m'), w')
                   /\ m_status m' = Accepted
                   /\ matches (db w') !! "match1" = Some m'.
Proof.
  split; [vm_compute; reflexivity|].
  refine (proj1 (proj1 (accept_complete_check_provider_only
                          (Sample.with_match Completed) "match1" "bob"
                          (Sample.details1 Completed) _) _)).
  - vm_compute; reflexivity.
  - reflexivity.
Defined.

(** C8: for every match found by [Match.findById] and every caller,
    [cancelMatch] succeeds and leaves the match [cancelled]; the table
    of compute requests, hence the parent request's status, is
    unchanged. *)
Theorem cancelMatch_any_caller_keeps_request
    (w : World) (matchId agentId : string) (md : MatchDetails) :
  Match.findById matchId (db w) = Some md ->
  exists m' w',
    MatchingService.cancelMatch matchId agentId w = (Ok (Some m'), w')
    /\ m_status m' = Cancelled
    /\ matches (db w') !! matchId = Some m'
    /\ compute_requests (db w') = compute_requests (db w)
    /\ compute_requests (db w') !! m_request_id (md_match md)
       = compute_requests (db w) !! m_request_id (md_match md).
Proof.
  intros Hfind. pose proof (findById_match _ _ _ Hfind) as Hm.
  destruct (Match_update_spec matchId (Match.SetStatus Cancelled) [] w _ Hm) as [Hu Hl].
  unfold MatchingService.cancelMatch.
  unfold catch_rethrow, mbind, M_bind, bind, query at 1.
  rewrite Hfind, Hu. run. do 2 eexists.
  split; [reflexivity|]. split; [reflexivity|]. split; [exact Hl|].
  split; reflexivity.
Qed.

Lemma cancelMatch_any_caller_keeps_request_witness :
  Match.findById "match1" (db (Sample.with_match Accepted))
    = Some (Sample.details1 Accepted)
  /\ exists m' w',
       MatchingService.cancelMatch "match1" "mallory" (Sample.with_match Accepted)
         = (Ok (Some m'), w')
       /\ m_status m' = Cancelled
       /\ matches (db w') !! "match1" = Some m'
       /\ compute_requests (db w') = compute_requests (db (Sample.with_match Accepted))
       /\ compute_requests (db w') !! "req1"
          = compute_requests (db (Sample.with_match Accepted)) !! "req1".
Proof.
  split; [vm_compute; reflexivity|].
  refine (cancelMatch_any_caller_keeps_request
            (Sample.with_match Accepted) "match1" "mallory"
            (Sample.details1 Accepted) _).
  vm_compute; reflexivity.
Defined.

(** ** Discovery *)

Lemma insert_by_perm {A} (before : A -> A -> bool) (x : A) (l : list A) :
  insert_by before x l ≡ₚ x :: l.
Proof.
  induction l as [|y l IH]; simpl; [reflexivity|].
  destruct (before x y); [reflexivity|].
  rewrite IH. apply Permutation_swap.
Qed.

Lemma fold_insert_by_perm {A} (before : A -> A -> bool) (l acc : list A) :
  fold_left (fun acc x => insert_by before x acc) l acc ≡ₚ l ++ acc.
Proof.
  revert acc. induction l as [|x l IH]; intros acc; simpl; [reflexivity|].
  rewrite IH, insert_by_perm. symmetry. apply Permutation_middle.
Qed.

Lemma sort_by_perm {A} (before : A -> A -> bool) (l : list A) :
  sort_by before l ≡ₚ l.
Proof. unfold sort_by. rewrite fold_insert_by_perm, app_nil_r. reflexivity. Qed.

Lemma sort_by_length {A} (before : A -> A -> bool) (l : list A) :
  length (sort_by before l) = length l.
Proof. apply Permutation_length, sort_by_perm. Qed.

Lemma AvailabilityStatus_eqb_eq (a b : AvailabilityStatus) :
  AvailabilityStatus_eqb a b = true <-> a = b.
Proof. destruct a, b; simpl; split; congruence. Qed.

Lemma truthy_str_false (r : string) : Js.truthy_str r = false <-> r = "".
Proof.
  unfold Js.truthy_str. rewrite negb_false_iff. apply String.eqb_eq.
Qed.

(** The [WHERE] clause of [search], with the region the service passes,
    is the stated filter. *)
Lemma where_clause_stated (request : ReqQuery) (pc : CapabilityRow) :
  ProviderCapability.where_clause (rq_gpu_count request) (rq_gpu_type request)
    (rq_max_price_per_hour request)
    (MatchingService.region_or_null (rq_region request)) pc = true
  <-> stated_filter request pc.
Proof.
  unfold ProviderCapability.where_clause, stated_filter, region_unset,
    MatchingService.region_or_null.
  rewrite !andb_true_iff, AvailabilityStatus_eqb_eq, String.eqb_eq.
  destruct (rq_region request) as [r|]; simpl.
  - destruct (Js.truthy_str r) eqn:Er.
    + rewrite Er. destruct (pc_region pc) as [r'|].
      * rewrite String.eqb_eq. split.
        -- intros [[[[? ?] ?] ?] ->]. tauto.
        -- intros (? & ? & ? & ? & [[?|E]|E]); try discriminate.
           ++ inversion E; subst r. discriminate.
           ++ inversion E. tauto.
      * split.
        -- intros [_ ?]; discriminate.
        -- intros (? & ? & ? & ? & [[?|E]|E]); try discriminate.
           inversion E; subst r. discriminate.
    + apply truthy_str_false in Er. subst r. tauto.
  - tauto.
Qed.

(** Membership in the rows of [search]. *)
Lemma search_elem (gpuCount : number) (gpuType : string) (maxPrice : number)
    (region : option string) (s : Store) (h : CapabilityHit) :
  h ∈ ProviderCapability.search gpuCount gpuType maxPrice region s
  <-> (exists k pc, provider_capabilities s !! k = Some pc
                    /\ ProviderCapability.join_agent s pc = Some h)
      /\ ProviderCapability.where_clause gpuCount gpuType maxPrice region
            (hit_capability h) = true.
Proof.
  unfold ProviderCapability.search. rewrite sort_by_perm.
  rewrite list_elem_of_In, filter_In, <- list_elem_of_In, list_elem_of_omap.
  split.
  - intros [[[k pc] [Hin Hj]] Hw]. split; [|exact Hw].
    exists k, pc. split; [|exact Hj]. apply elem_of_map_to_list in Hin. exact Hin.
  - intros [(k & pc & Hl & Hj) Hw]. split; [|exact Hw].
    exists (k, pc). split; [|exact Hj]. apply elem_of_map_to_list. exact Hl.
Qed.

Lemma join_agent_capability (s : Store) (pc : CapabilityRow) (h : CapabilityHit) :
  ProviderCapability.join_agent s pc = Some h -> hit_capability h = pc.
Proof.
  unfold ProviderCapability.join_agent.
  destruct (agents s !! pc_provider_id pc); simpl; [|discriminate].
  intros E; inversion E; reflexivity.
Qed.

(** With no row passing the [WHERE] clause, [search] is empty. *)
Lemma search_nil (gpuCount : number) (gpuType : string) (maxPrice : number)
    (region : option string) (s : Store) :
  map_Forall (fun _ pc =>
      ProviderCapability.where_clause gpuCount gpuType maxPrice region pc = false)
    (provider_capabilities s) ->
  ProviderCapability.search gpuCount gpuType maxPrice region s = [].
Proof.
  intros Hall.
  destruct (ProviderCapability.search gpuCount gpuType maxPrice region s)
    as [|h l] eqn:E; [reflexivity|].
  assert (h ∈ ProviderCapability.search gpuCount gpuType maxPrice region s) as Hin.
  { rewrite E. apply elem_of_cons; left; reflexivity. }
  apply search_elem in Hin. destruct Hin as [(k & pc & Hl & Hj) Hw].
  apply join_agent_capability in Hj. rewrite Hj in Hw.
  rewrite (Hall k pc Hl) in Hw. discriminate.
Qed.

(** [findMatches] never fails and writes nothing: it returns the first
    [limit] rows of [search], scored and sorted. *)
Lemma findMatches_run (request : ReqQuery) (limit : nat) (w : World) :
  MatchingService.findMatches request limit w
  = (Ok (take limit
           (sort_by MatchingService.score_before
              (map (fun provider =>
                      {| sp_provider := provider;
                         match_score := calculateMatchScore request (view_of_hit provider) |})
                   (ProviderCapability.search
                      (rq_gpu_count request) (rq_gpu_type request)
                      (rq_max_price_per_hour request)
                      (MatchingService.region_or_null (rq_region request)) (db w))))),
     w).
Proof.
  unfold MatchingService.findMatches. run.
  destruct (ProviderCapability.search _ _ _ _ _) as [|h l]; simpl.
  - destruct limit; reflexivity.
  - reflexivity.
Qed.






(** ** Escrow *)

Lemma PaymentService_update_status_run (id : string) (st : TransactionStatus) (w : World) :
  PaymentService.update_status id st w
  = (Ok tt,
     set_db (set_transactions
               (alter (fun row => PaymentService.with_status st
                                    (t_transaction_hash row) (now w) row) id)) w).
Proof. reflexivity. Qed.

(** [createPaymentIntent] when the processor opens the hold and the
    database accepts the row. *)
Lemma createPaymentIntent_run
    (env : Env) (w : World) (matchId requesterId providerId : string)
    (amount : number) (intent : PaymentIntent) :
  let tid := uuidv4 env (uuid_drawn w) in
  let hold := PaymentIntentsCreate (Js.Math_round (amount * 100)%float) "usd"
                matchId requesterId providerId
                ("Whalen Protocol - Compute Match " ++ matchId) in
  let row := {| t_id := tid; t_match_id := matchId;
                t_requester_id := requesterId; t_provider_id := providerId;
                t_amount := numeric_18_8 env amount; t_currency := "USD";
                t_status := TxPending;
                t_payment_method := Some "stripe"; t_transaction_hash := None;
                t_created_at := now w; t_updated_at := now w |} in
  stripe_paymentIntents_create env (stripe_calls w) hold = Ok intent ->
  Sql.numeric_18_8_accepts amount = true ->
  transactions (db w) !! tid = None ->
  is_Some (matches (db w) !! matchId) ->
  is_Some (agents (db w) !! requesterId) ->
  is_Some (agents (db w) !! providerId) ->
  PaymentService.createPaymentIntent env matchId amount requesterId providerId w
  = (Ok {| pd_transactionId := tid; pd_paymentIntentId := pi_id intent;
           pd_clientSecret := pi_client_secret intent;
           pd_amount := amount; pd_status := TxPending |},
     {| db := set_transactions <[tid := row]> (db w);
        stripe_calls := stripe_calls w ++ [hold];
        uuid_drawn := S (uuid_drawn w); now := now w |}).
Proof.
  intros tid hold row Hhold Hfits Hfresh Hm Hr Hp.
  unfold PaymentService.createPaymentIntent, PaymentService.insert_transaction,
    PaymentService.references_ok, PaymentService.stored.
  run. fold hold. rewrite Hhold. simpl. fold tid. rewrite Hfits. simpl.
  rewrite bool_decide_eq_false_2 by (rewrite Hfresh; intros [? ?]; discriminate).
  rewrite !bool_decide_eq_true_2 by assumption.
  reflexivity.
Qed.

(** [confirmPayment] when the processor reports the intent as paid. *)
Lemma confirmPayment_run
    (env : Env) (w : World) (paymentIntentId transactionId : string)
    (paid : PaymentIntent) (row : TransactionRow) :
  stripe_paymentIntents_retrieve env (stripe_calls w) paymentIntentId = Ok paid ->
  pi_status paid = "succeeded" ->
  transactions (db w) !! transactionId = Some row ->
  PaymentService.confirmPayment env paymentIntentId transactionId w
  = (Ok (PaymentService.with_status Escrowed (Some (pi_id paid)) (now w) row),
     {| db := set_transactions
                (alter (PaymentService.with_status Escrowed (Some (pi_id paid)) (now w))
                       transactionId) (db w);
        stripe_calls := stripe_calls w ++ [PaymentIntentsRetrieve paymentIntentId];
        uuid_drawn := uuid_drawn w; now := now w |}).
Proof.
  intros Hret Hpaid Hrow. unfold PaymentService.confirmPayment. run.
  rewrite Hret, Hpaid. simpl. rewrite lookup_alter_eq, Hrow. reflexivity.
Qed.

(** [releasePayment(transactionId, true)]: a bookkeeping step, without
    any call on the processor. *)
Lemma releasePayment_settles
    (env : Env) (w : World) (transactionId : string) (row : TransactionRow) :
  transactions (db w) !! transactionId = Some row ->
  PaymentService.releasePayment env transactionId true w
  = (Ok (Some (PaymentService.with_status Settled (t_transaction_hash row) (now w) row)),
     set_db (set_transactions
               (alter (fun r => PaymentService.with_status Settled
                                  (t_transaction_hash r) (now w) r) transactionId)) w).
Proof.
  intros Hrow. unfold PaymentService.releasePayment, PaymentService.update_status. run.
  rewrite lookup_alter_eq, Hrow. reflexivity.
Qed.

(** [releasePayment(transactionId, false)] when the processor grants the
    refund. *)
Lemma releasePayment_refunds
    (env : Env) (w : World) (transactionId : string) (row : TransactionRow) :
  transactions (db w) !! transactionId = Some row ->
  stripe_refunds_create env (stripe_calls w) (t_transaction_hash row) = Ok tt ->
  PaymentService.releasePayment env transactionId false w
  = (Ok (Some (PaymentService.with_status Refunded (t_transaction_hash row) (now w) row)),
     {| db := set_transactions
                (alter (fun r => PaymentService.with_status Refunded
                                   (t_transaction_hash r) (now w) r) transactionId) (db w);
        stripe_calls := stripe_calls w ++ [RefundsCreate (t_transaction_hash row)];
        uuid_drawn := uuid_drawn w; now := now w |}).
Proof.
  intros Hrow Hrefund. unfold PaymentService.releasePayment, PaymentService.update_status.
  run. rewrite Hrow. simpl. rewrite Hrefund. simpl.
  rewrite lookup_alter_eq, Hrow. reflexivity.
Qed.

Lemma refund_calls_app (l k : list StripeCall) :
  refund_calls (l ++ k) = refund_calls l + refund_calls k.
Proof. unfold refund_calls. rewrite List.filter_app, length_app. reflexivity. Qed.

(** C2: when the processor opens the hold, reports the intent as
    succeeded and the database accepts the new row (an amount below
    10^10 in magnitude, as the [DECIMAL(18,8)] column requires, a fresh
    id, existing match and agents) and the intent's id (at most 255
    characters, as [transaction_hash] requires), [createPaymentIntent],
    [confirmPayment] and [releasePayment(.., true)] leave the
    transaction [pending], then [escrowed], then [settled], the last
    step without a processor call; and on any [escrowed] transaction
    whose refund the processor grants, [releasePayment(.., false)]
    leaves it [refunded] and makes exactly one call on the processor, a
    refund. *)
Theorem escrow_round_trip
    (env : Env) (w : World) (matchId requesterId providerId : string)
    (amount : number) (intent paid : PaymentIntent)
    (we : World) (escrowedId : string) (escrowedRow : TransactionRow) :
  let tid := uuidv4 env (uuid_drawn w) in
  let hold := PaymentIntentsCreate (Js.Math_round (amount * 100)%float) "usd"
                matchId requesterId providerId
                ("Whalen Protocol - Compute Match " ++ matchId) in
  stripe_paymentIntents_create env (stripe_calls w) hold = Ok intent ->
  stripe_paymentIntents_retrieve env (stripe_calls w ++ [hold]) (pi_id intent) = Ok paid ->
  pi_status paid = "succeeded" ->
  Sql.varchar_accepts 255 (pi_id paid) = true ->
  Sql.numeric_18_8_accepts amount = true ->
  transactions (db w) !! tid = None ->
  is_Some (matches (db w) !! matchId) ->
  is_Some (agents (db w) !! requesterId) ->
  is_Some (agents (db w) !! providerId) ->
  transactions (db we) !! escrowedId = Some escrowedRow ->
  t_status escrowedRow = Escrowed ->
  stripe_refunds_create env (stripe_calls we) (t_transaction_hash escrowedRow) = Ok tt ->
  (exists pd w1 row2 w2 row3 w3,
      PaymentService.createPaymentIntent env matchId amount requesterId providerId w
        = (Ok pd, w1)
      /\ pd_transactionId pd = tid
      /\ status_of tid w1 = Some TxPending
      /\ PaymentService.confirmPayment env (pd_paymentIntentId pd) tid w1 = (Ok row2, w2)
      /\ status_of tid w2 = Some Escrowed
      /\ PaymentService.releasePayment env tid true w2 = (Ok (Some row3), w3)
      /\ status_of tid w3 = Some Settled
      /\ stripe_calls w3 = stripe_calls w2)
  /\ (exists row' we',
        PaymentService.releasePayment env escrowedId false we = (Ok (Some row'), we')
        /\ status_of escrowedId we' = Some Refunded
        /\ stripe_calls we'
           = (stripe_calls we ++ [RefundsCreate (t_transaction_hash escrowedRow)])%list
        /\ refund_calls (stripe_calls we') = S (refund_calls (stripe_calls we))).
Proof.
  intros tid hold Hhold Hret Hpaid Hid Hfits Hfresh Hm Hr Hp Hrow Hesc Hrefund.
  split.
  - do 6 eexists.
    split; [apply (createPaymentIntent_run env w); eassumption|].
    split; [reflexivity|].
    split; [unfold status_of; simpl; fold tid; rewrite lookup_insert_eq; reflexivity|].
    split.
    { simpl. apply confirmPayment_run; [exact Hret|exact Hpaid|].
      simpl. fold tid. apply lookup_insert_eq. }
    split; [unfold status_of; simpl; rewrite lookup_alter_eq;
            fold tid; rewrite lookup_insert_eq; reflexivity|].
    split.
    { apply releasePayment_settles. simpl. rewrite lookup_alter_eq.
      fold tid. rewrite lookup_insert_eq. reflexivity. }
    split; [|reflexivity].
    unfold status_of. simpl. rewrite !lookup_alter_eq.
    fold tid. rewrite lookup_insert_eq. reflexivity.
  - do 2 eexists.
    split; [apply releasePayment_refunds; eassumption|].
    split; [unfold status_of; simpl; rewrite lookup_alter_eq, Hrow; reflexivity|].
    split; [reflexivity|].
    simpl. rewrite refund_calls_app.
    change (refund_calls [RefundsCreate (t_transaction_hash escrowedRow)]) with 1.
    lia.
Qed.

Lemma escrow_round_trip_witness :
  (transactions (db Sample.escrowed_world) !! "uuid-0" = Some Sample.escrowed_row
   /\ Sql.numeric_18_8_accepts 91%float = true)
  /\ (exists pd w1 row2 w2 row3 w3,
        PaymentService.createPaymentIntent Sample.env "match1" 91%float "alice" "bob"
          (Sample.with_match Accepted) = (Ok pd, w1)
        /\ pd_transactionId pd = "uuid-0"
        /\ status_of "uuid-0" w1 = Some TxPending
        /\ PaymentService.confirmPayment Sample.env (pd_paymentIntentId pd) "uuid-0" w1
           = (Ok row2, w2)
        /\ status_of "uuid-0" w2 = Some Escrowed
        /\ PaymentService.releasePayment Sample.env "uuid-0" true w2 = (Ok (Some row3), w3)
        /\ status_of "uuid-0" w3 = Some Settled
        /\ stripe_calls w3 = stripe_calls w2)
  /\ exists row' we',
       PaymentService.releasePayment Sample.env "uuid-0" false Sample.escrowed_world
         = (Ok (Some row'), we')
       /\ status_of "uuid-0" we' = Some Refunded
       /\ stripe_calls we'
          = (stripe_calls Sample.escrowed_world ++ [RefundsCreate (Some "pi_1")])%list
       /\ refund_calls (stripe_calls we') = S (refund_calls (stripe_calls Sample.escrowed_world)).
Proof.
  split; [split; vm_compute; reflexivity|].
  refine (escrow_round_trip Sample.env (Sample.with_match Accepted)
            "match1" "alice" "bob" 91%float
            (Sample.intent "requires_payment_method") (Sample.intent "succeeded")
            Sample.escrowed_world "uuid-0" Sample.escrowed_row
            _ _ _ _ _ _ _ _ _ _ _ _).
  - reflexivity.
  - reflexivity.
  - reflexivity.
  - reflexivity.
  - reflexivity.
  - vm_compute; reflexivity.
  - eexists; vm_compute; reflexivity.
  - eexists; vm_compute; reflexivity.
  - eexists; vm_compute; reflexivity.
  - vm_compute; reflexivity.
  - reflexivity.
  - reflexivity.
Defined.

(** The round trip on the sample world, run. *)
Example escrow_round_trip_sample :
  let w1 := snd (PaymentService.createPaymentIntent Sample.env "match1" 91%float
                   "alice" "bob" (Sample.with_match Accepted)) in
  let w2 := snd (PaymentService.confirmPayment Sample.env "pi_1" "uuid-0" w1) in
  let w3 := snd (PaymentService.releasePayment Sample.env "uuid-0" true w2) in
  status_of "uuid-0" w1 = Some TxPending
  /\ status_of "uuid-0" w2 = Some Escrowed
  /\ status_of "uuid-0" w3 = Some Settled
  /\ stripe_calls w2 = stripe_calls Sample.escrowed_world
  /\ transactions (db w2) !! "uuid-0" = Some Sample.escrowed_row.
Proof. repeat split; vm_compute; reflexivity. Qed.

(** An amount of eleven digits does not fit [DECIMAL(18,8)]: the hold
    is requested, the [INSERT] raises and no transaction is stored. *)
Example createPaymentIntent_overflow_sample :
  let run := PaymentService.createPaymentIntent Sample.env "match1" 12345678901%float
               "alice" "bob" (Sample.with_match Accepted) in
  fst run = Throw "Payment intent creation failed: numeric field overflow"
  /\ db (snd run) = db (Sample.with_match Accepted)
  /\ length (stripe_calls (snd run)) = 1.
Proof. repeat split; vm_compute; reflexivity. Qed.

(** The service asks the processor for the hold before anything else,
    whatever the amount. *)
Lemma createPaymentIntent_calls_processor
    (env : Env) (w : World) (matchId requesterId providerId : string) (amount : number) :
  stripe_calls (snd (PaymentService.createPaymentIntent env matchId amount
                       requesterId providerId w))
  = (stripe_calls w
       ++ [PaymentIntentsCreate (Js.Math_round (amount * 100)%float) "usd"
             matchId requesterId providerId
             ("Whalen Protocol - Compute Match " ++ matchId)])%list.
Proof.
  unfold PaymentService.createPaymentIntent, PaymentService.insert_transaction. run.
  destruct (stripe_paymentIntents_create env _ _); simpl; [|reflexivity].
  destruct (negb (Sql.numeric_18_8_accepts amount)); simpl; [reflexivity|].
  destruct (bool_decide _); simpl; [reflexivity|].
  destruct (negb _); reflexivity.
Qed.

(** A hold that the processor refuses: the failure carries the
    processor's message, and only the call was made. *)
Lemma createPaymentIntent_refused
    (env : Env) (w : World) (matchId requesterId providerId : string) (amount : number)
    (e : string) :
  let hold := PaymentIntentsCreate (Js.Math_round (amount * 100)%float) "usd"
                matchId requesterId providerId
                ("Whalen Protocol - Compute Match " ++ matchId) in
  stripe_paymentIntents_create env (stripe_calls w) hold = Throw e ->
  PaymentService.createPaymentIntent env matchId amount requesterId providerId w
  = (Throw ("Payment intent creation failed: " ++ e), log_call hold w).
Proof.
  intros hold Hhold. unfold PaymentService.createPaymentIntent. run.
  fold hold. rewrite Hhold. reflexivity.
Qed.

(** C6, as stated, fails: called with the amount -5,
    [PaymentService.createPaymentIntent] asks the processor for a hold
    of -500 cents, in every world and whatever the processor then
    answers.  When the processor refuses, the failure is the
    processor's, not a rejection of the input; when it grants the hold,
    the call succeeds and a [pending] row is stored. *)
Lemma createPaymentIntent_takes_negative_amount :
  let hold := PaymentIntentsCreate (-500)%float "usd" "match1" "alice" "bob"
                "Whalen Protocol - Compute Match match1" in
  let refused := PaymentService.createPaymentIntent Sample.refusing_env "match1"
                   (-5)%float "alice" "bob" (Sample.with_match Accepted) in
  let granted := PaymentService.createPaymentIntent Sample.env "match1" (-5)%float
                   "alice" "bob" (Sample.with_match Accepted) in
  ((-5) <=? 0)%float = true
  /\ (forall (env : Env) (w : World),
        stripe_calls (snd (PaymentService.createPaymentIntent env "match1" (-5)%float
                             "alice" "bob" w))
        = (stripe_calls w ++ [hold])%list)
  /\ fst refused = Throw "Payment intent creation failed: Your card was declined."
  /\ db (snd refused) = db (Sample.with_match Accepted)
  /\ is_ok (fst granted) = true
  /\ status_of "uuid-0" (snd granted) = Some TxPending.
Proof.
  split; [reflexivity|].
  split; [intros env w; rewrite createPaymentIntent_calls_processor; reflexivity|].
  repeat split; vm_compute; reflexivity.
Qed.

(** C6, amended: [PaymentService.createPaymentIntent] does not check its
    amount.  For every amount <= 0 (as for every other amount) it first
    asks the processor for a hold of [Math.round(amount * 100)]; when the
    processor refuses, it fails with the processor's message and stores
    nothing; when the processor grants the hold and the database accepts
    the row, it succeeds and stores a [pending] transaction of that
    amount. *)
Theorem createPaymentIntent_checks_no_amount
    (env : Env) (w : World) (matchId requesterId providerId : string) (amount : number) :
  (amount <=? 0)%float = true ->
  let tid := uuidv4 env (uuid_drawn w) in
  let hold := PaymentIntentsCreate (Js.Math_round (amount * 100)%float) "usd"
                matchId requesterId providerId
                ("Whalen Protocol - Compute Match " ++ matchId) in
  let run := PaymentService.createPaymentIntent env matchId amount
               requesterId providerId w in
  stripe_calls (snd run) = (stripe_calls w ++ [hold])%list
  /\ (forall e,
        stripe_paymentIntents_create env (stripe_calls w) hold = Throw e ->
        run = (Throw ("Payment intent creation failed: " ++ e), log_call hold w))
  /\ (forall intent,
        stripe_paymentIntents_create env (stripe_calls w) hold = Ok intent ->
        Sql.numeric_18_8_accepts amount = true ->
        transactions (db w) !! tid = None ->
        is_Some (matches (db w) !! matchId) ->
        is_Some (agents (db w) !! requesterId) ->
        is_Some (agents (db w) !! providerId) ->
        exists w',
          run = (Ok {| pd_transactionId := tid; pd_paymentIntentId := pi_id intent;
                       pd_clientSecret := pi_client_secret intent;
                       pd_amount := amount; pd_status := TxPending |}, w')
          /\ status_of tid w' = Some TxPending
          /\ t_amount <$> transactions (db w') !! tid = Some (numeric_18_8 env amount)).
Proof.
  intros _ tid hold run. subst run.
  split; [apply createPaymentIntent_calls_processor|].
  split; [intros e He; apply createPaymentIntent_refused; exact He|].
  intros intent Hhold Hfits Hfresh Hm Hr Hp.
  eexists. split; [apply (createPaymentIntent_run env w); eassumption|].
  unfold status_of. simpl. fold tid. rewrite lookup_insert_eq. split; reflexivity.
Qed.

Lemma createPaymentIntent_checks_no_amount_witness :
  ((-5) <=? 0)%float = true
  /\ stripe_calls (snd (PaymentService.createPaymentIntent Sample.refusing_env "match1"
                          (-5)%float "alice" "bob" (Sample.with_match Accepted)))
     = (stripe_calls (Sample.with_match Accepted)
          ++ [PaymentIntentsCreate (Js.Math_round ((-5) * 100)%float) "usd"
                "match1" "alice" "bob" ("Whalen Protocol - Compute Match " ++ "match1")])%list.
Proof.
  split; [reflexivity|].
  refine (proj1 (createPaymentIntent_checks_no_amount Sample.refusing_env
                   (Sample.with_match Accepted) "match1" "alice" "bob" (-5)%float _)).
  reflexivity.
Defined.

(** ** Verification *)

(** The verification row after the verifier's decision. *)
Lemma update_verification_run
    (w : World) (id verifierId notes : string) (approved : bool) (verif : VerificationRow) :
  verifications (db w) !! id = Some verif ->
  is_Some (agents (db w) !! verifierId) ->
  VerificationService.update_verification id approved verifierId notes w
  = (Ok (Some (VerificationService.decide_verification approved verifierId notes
                 (now w) verif)),
     set_db (set_verifications
               (alter (VerificationService.decide_verification approved verifierId notes
                         (now w)) id)) w).
Proof.
  intros Hv Ha. unfold VerificationService.update_verification. run.
  rewrite (bool_decide_eq_true_2 _ Ha). rewrite andb_false_r.
  rewrite lookup_alter_eq, Hv. reflexivity.
Qed.

(** C5: [verifyWork] fails with the not-found error, changing nothing,
    when the verification row is absent (the id being the text of a
    UUID, which the query requires).  On an existing verification,
    with a registered verifier and notes that a [TEXT] column accepts,
    [approved = true] records the decision, sets the transaction to
    [verified] and its match to [completed]; no call is made on the
    processor and the transaction is neither [settled] nor
    [refunded]. *)
Theorem verifyWork_approval_cascades
    (w : World) (verificationId verifierId notes : string)
    (verif : VerificationRow) (tx : TransactionRow) (m : MatchRow)
    (w0 : World) (missingId : string) (approved0 : bool) :
  Sql.canonical_uuid missingId = true ->
  verifications (db w0) !! missingId = None ->
  verifications (db w) !! verificationId = Some verif ->
  is_Some (agents (db w) !! verifierId) ->
  Sql.text_accepts notes = true ->
  transactions (db w) !! v_transaction_id verif = Some tx ->
  matches (db w) !! t_match_id tx = Some m ->
  VerificationService.verifyWork missingId verifierId approved0 notes w0
    = (Throw "Work verification failed: Verification not found", w0)
  /\ exists row' w',
       VerificationService.verifyWork verificationId verifierId true notes w
         = (Ok (Some row'), w')
       /\ row' = VerificationService.decide_verification true verifierId notes (now w) verif
       /\ verifications (db w') !! verificationId = Some row'
       /\ v_verified row' = true
       /\ status_of (v_transaction_id verif) w' = Some Verified
       /\ m_status <$> matches (db w') !! t_match_id tx = Some Completed
       /\ stripe_calls w' = stripe_calls w.
Proof.
  intros _ Hmissing Hv Ha _ Htx Hm. split.
  - unfold VerificationService.verifyWork. run. rewrite Hmissing. reflexivity.
  - pose proof (update_verification_run w verificationId verifierId notes true verif Hv Ha)
      as Hu.
    unfold VerificationService.verifyWork.
    unfold catch_rewrap, mbind, M_bind, bind, query at 1.
    rewrite Hv. cbv beta iota. rewrite Hu. cbv beta iota.
    rewrite PaymentService_update_status_run. run.
    rewrite lookup_alter_eq, Htx. simpl.
    do 2 eexists. split; [reflexivity|]. split; [reflexivity|]. simpl.
    split; [rewrite lookup_alter_eq, Hv; reflexivity|].
    split; [reflexivity|].
    split; [unfold status_of; simpl; rewrite lookup_alter_eq, Htx; reflexivity|].
    split; [rewrite lookup_alter_eq, Hm; reflexivity|].
    reflexivity.
Qed.

Lemma verifyWork_approval_cascades_witness :
  (verifications (db Sample.proved_world) !! "ver1" = Some Sample.proof_row
   /\ Sql.canonical_uuid (Sample.uuid "e9") = true
   /\ verifications (db Sample.proved_world) !! Sample.uuid "e9" = None)
  /\ VerificationService.verifyWork (Sample.uuid "e9") "alice" false "ok"
       Sample.proved_world
     = (Throw "Work verification failed: Verification not found", Sample.proved_world)
  /\ exists row' w',
       VerificationService.verifyWork "ver1" "alice" true "ok" Sample.proved_world
         = (Ok (Some row'), w')
       /\ row' = VerificationService.decide_verification true "alice" "ok" 1000
                   Sample.proof_row
       /\ verifications (db w') !! "ver1" = Some row'
       /\ v_verified row' = true
       /\ status_of "uuid-0" w' = Some Verified
       /\ m_status <$> matches (db w') !! "match1" = Some Completed
       /\ stripe_calls w' = stripe_calls Sample.proved_world.
Proof.
  split; [repeat split; vm_compute; reflexivity|].
  refine (verifyWork_approval_cascades Sample.proved_world "ver1" "alice" "ok"
            Sample.proof_row Sample.escrowed_row (Sample.match1 Accepted)
            Sample.proved_world (Sample.uuid "e9") false _ _ _ _ _ _ _).
  - vm_compute; reflexivity.
  - vm_compute; reflexivity.
  - vm_compute; reflexivity.
  - eexists; vm_compute; reflexivity.
  - reflexivity.
  - vm_compute; reflexivity.
  - vm_compute; reflexivity.
Defined.



(** ** Proof hashes *)

(** C9: the hash is a function of the payload, indeed of its JSON text
    alone; and [verifyProofHash] returns [true] exactly on the hash that
    [generateProofHash] computes for the payload. *)
Theorem proof_hash_deterministic_and_checked
    {ProofData : Type} (JSON_stringify : ProofData -> option string)
    (sha256_hex : string -> string) :
  let generate := VerificationService.generateProofHash JSON_stringify sha256_hex in
  let verify := VerificationService.verifyProofHash JSON_stringify sha256_hex in
  (forall d1 d2 : ProofData, d1 = d2 -> generate d1 = generate d2)
  /\ (forall d1 d2 : ProofData,
        JSON_stringify d1 = JSON_stringify d2 -> generate d1 = generate d2)
  /\ (forall (h : string) (d : ProofData), verify h d = Ok true <-> generate d = Ok h).
Proof.
  intros generate verify. subst generate verify.
  unfold VerificationService.verifyProofHash, VerificationService.generateProofHash.
  split; [intros d1 d2 ->; reflexivity|].
  split; [intros d1 d2 ->; reflexivity|].
  intros h d. destruct (JSON_stringify d) as [text|].
  - split.
    + intros E. inversion E as [E']. apply String.eqb_eq in E'. congruence.
    + intros E. inversion E. rewrite String.eqb_refl. reflexivity.
  - split; discriminate.
Qed.

(** ** Match score *)

(** The scenario of the specification: capability A scores 146.4. *)
Example calculateMatchScore_scenario :
  calculateMatchScore Sample.scenario_request (Sample.capability_A (Some 4.8%float))
  = 146.4%float.
Proof. vm_compute. reflexivity. Qed.

(** The code computes the stated score whenever the reputation is absent
    or is a number other than zero and NaN. *)
Lemma calculateMatchScore_stated (request : ReqQuery) (capability : CapabilityView) :
  match cv_reputation_score capability with
  | Some r => Js.truthy r = true
  | None => True
  end ->
  calculateMatchScore request capability = stated_score request capability.
Proof.
  unfold calculateMatchScore, stated_score, reputation_or_5.
  destruct (cv_reputation_score capability) as [r|]; [intros ->|intros _]; reflexivity.
Qed.

(** C4: with the reputation 0 the code adds the default bonus of 10 and
    returns 146.8 for capability A, where the stated score, which
    defaults the reputation only when it is absent, is 136.8. *)
Theorem calculateMatchScore_zero_reputation :
  calculateMatchScore Sample.scenario_request (Sample.capability_A (Some 0%float))
    = 146.8%float
  /\ stated_score Sample.scenario_request (Sample.capability_A (Some 0%float))
    = 136.8%float
  /\ calculateMatchScore Sample.scenario_request (Sample.capability_A (Some 0%float))
     = calculateMatchScore Sample.scenario_request (Sample.capability_A None).
Proof. repeat split; vm_compute; reflexivity. Qed.

(** * Further properties *)

(** ** Match lifecycle, continued *)

Lemma findById_request (id : string) (s : Store) (md : MatchDetails) :
  Match.findById id s = Some md ->
  exists cr, compute_requests s !! m_request_id (md_match md) = Some cr.
Proof.
  unfold Match.findById. intros H.
  destruct (matches s !! id) as [m|]; simpl in H; [|discriminate].
  destruct (compute_requests s !! m_request_id m) as [cr|] eqn:E; simpl in H;
    [|discriminate].
  destruct (agents s !! m_provider_id m) as [a|]; simpl in H; [|discriminate].
  inversion H; subst; simpl. exists cr. exact E.
Qed.

(** [ComputeRequest.update] with one status assignment. *)
Lemma ComputeRequest_update_run (id : string) (st : RequestStatus) (w : World) :
  ComputeRequest.update id [ComputeRequest.SetStatus st] w
  = (Ok (compute_requests
           (db (set_db (set_compute_requests
                  (alter (fun row => ComputeRequest.touch (now w)
                                       (ComputeRequest.assign row (ComputeRequest.SetStatus st)))
                         id)) w)) !! id),
     set_db (set_compute_requests
               (alter (fun row => ComputeRequest.touch (now w)
                                    (ComputeRequest.assign row (ComputeRequest.SetStatus st)))
                      id)) w).
Proof. reflexivity. Qed.

(** X1: a successful accept stamps [start_time] and moves the parent
    request to [in_progress]; a successful complete stamps [end_time]
    and moves the request to [completed]. *)
Theorem accept_complete_sync_request
    (w : World) (matchId : string) (md : MatchDetails) :
  Match.findById matchId (db w) = Some md ->
  let provider := m_provider_id (md_match md) in
  let requestId := m_request_id (md_match md) in
  (exists m' w',
      MatchingService.acceptMatch matchId provider w = (Ok (Some m'), w')
      /\ m_status m' = Accepted
      /\ m_start_time m' = Some (now w)
      /\ m_end_time m' = m_end_time (md_match md)
      /\ m_updated_at m' = now w
      /\ cr_status <$> compute_requests (db w') !! requestId = Some ReqInProgress)
  /\ (exists m' w',
        MatchingService.completeMatch matchId provider w = (Ok (Some m'), w')
        /\ m_status m' = Completed
        /\ m_end_time m' = Some (now w)
        /\ m_start_time m' = m_start_time (md_match md)
        /\ m_updated_at m' = now w
        /\ cr_status <$> compute_requests (db w') !! requestId = Some ReqCompleted).
Proof.
  intros Hfind provider requestId.
  pose proof (findById_match _ _ _ Hfind) as Hm.
  destruct (findById_request _ _ _ Hfind) as [cr Hcr]. fold requestId in Hcr.
  split.
  - destruct (Match_update_spec matchId (Match.SetStatus Accepted)
                [Match.SetStartTime (now w)] w _ Hm) as [Hu _].
    unfold MatchingService.acceptMatch.
    unfold catch_rethrow, mbind, M_bind, bind, query at 1, get_world.
    rewrite Hfind. fold provider. rewrite eqb_string_refl. cbn [negb]. cbv beta iota.
    rewrite Hu. fold requestId. rewrite ComputeRequest_update_run.
    do 2 eexists. split; [reflexivity|]. repeat (split; [reflexivity|]).
    simpl. rewrite lookup_alter_eq, Hcr. reflexivity.
  - destruct (Match_update_spec matchId (Match.SetStatus Completed)
                [Match.SetEndTime (now w)] w _ Hm) as [Hu _].
    unfold MatchingService.completeMatch.
    unfold catch_rethrow, mbind, M_bind, bind, query at 1, get_world.
    rewrite Hfind. fold provider. rewrite eqb_string_refl. cbn [negb]. cbv beta iota.
    rewrite Hu. fold requestId. rewrite ComputeRequest_update_run.
    do 2 eexists. split; [reflexivity|]. repeat (split; [reflexivity|]).
    simpl. rewrite lookup_alter_eq, Hcr. reflexivity.
Qed.

Lemma accept_complete_sync_request_witness :
  Match.findById "match1" (db (Sample.with_match Proposed))
    = Some (Sample.details1 Proposed)
  /\ exists m' w',
       MatchingService.acceptMatch "match1" "bob" (Sample.with_match Proposed)
         = (Ok (Some m'), w')
       /\ m_status m' = Accepted
       /\ m_start_time m' = Some 1000%Z
       /\ m_end_time m' = None
       /\ m_updated_at m' = 1000%Z
       /\ cr_status <$> compute_requests (db w') !! "req1" = Some ReqInProgress.
Proof.
  split; [vm_compute; reflexivity|].
  refine (proj1 (accept_complete_sync_request (Sample.with_match Proposed) "match1"
                   (Sample.details1 Proposed) _)).
  vm_compute; reflexivity.
Defined.

Lemma lifecycle_frame_refl (matchId : string) (w : World) : lifecycle_frame matchId w w.
Proof. unfold lifecycle_frame. repeat split; reflexivity. Qed.

Lemma accept_frame (matchId caller : string) (w : World) :
  lifecycle_frame matchId w (snd (MatchingService.acceptMatch matchId caller w)).
Proof.
  unfold MatchingService.acceptMatch.
  unfold catch_rethrow, mbind, M_bind, bind, query at 1, get_world.
  destruct (Match.findById matchId (db w)) as [md|] eqn:Hfind;
    [|apply lifecycle_frame_refl].
  destruct (negb _); [apply lifecycle_frame_refl|]. cbv beta iota.
  pose proof (findById_match _ _ _ Hfind) as Hm.
  destruct (Match_update_spec matchId (Match.SetStatus Accepted)
              [Match.SetStartTime (now w)] w _ Hm) as [Hu _].
  rewrite Hu, ComputeRequest_update_run. simpl.
  unfold lifecycle_frame. simpl. repeat split.
  - intros k Hk. apply lookup_alter_ne. congruence.
  - intros k Hk. apply lookup_alter_ne. specialize (Hk _ Hm). congruence.
Qed.

Lemma complete_frame (matchId caller : string) (w : World) :
  lifecycle_frame matchId w (snd (MatchingService.completeMatch matchId caller w)).
Proof.
  unfold MatchingService.completeMatch.
  unfold catch_rethrow, mbind, M_bind, bind, query at 1, get_world.
  destruct (Match.findById matchId (db w)) as [md|] eqn:Hfind;
    [|apply lifecycle_frame_refl].
  destruct (negb _); [apply lifecycle_frame_refl|]. cbv beta iota.
  pose proof (findById_match _ _ _ Hfind) as Hm.
  destruct (Match_update_spec matchId (Match.SetStatus Completed)
              [Match.SetEndTime (now w)] w _ Hm) as [Hu _].
  rewrite Hu, ComputeRequest_update_run. simpl.
  unfold lifecycle_frame. simpl. repeat split.
  - intros k Hk. apply lookup_alter_ne. congruence.
  - intros k Hk. apply lookup_alter_ne. specialize (Hk _ Hm). congruence.
Qed.

(** [cancelMatch], run. *)
Lemma cancelMatch_run (matchId caller : string) (w : World) :
  MatchingService.cancelMatch matchId caller w
  = match Match.findById matchId (db w) with
    | None => (Throw "Match not found", w)
    | Some md =>
        (Ok (Some (Match.touch (now w)
                     (Match.assign (md_match md) (Match.SetStatus Cancelled)))),
         set_db (set_matches
                   (alter (fun row => Match.touch (now w)
                                        (fold_left Match.assign
                                           [Match.SetStatus Cancelled] row))
                          matchId)) w)
    end.
Proof.
  unfold MatchingService.cancelMatch.
  unfold catch_rethrow, mbind, M_bind, bind, query at 1.
  destruct (Match.findById matchId (db w)) as [md|] eqn:Hfind; [|reflexivity].
  pose proof (findById_match _ _ _ Hfind) as Hm.
  destruct (Match_update_spec matchId (Match.SetStatus Cancelled) [] w _ Hm) as [Hu _].
  rewrite Hu. reflexivity.
Qed.

Lemma cancel_frame (matchId caller : string) (w : World) :
  lifecycle_frame matchId w (snd (MatchingService.cancelMatch matchId caller w))
  /\ compute_requests (db (snd (MatchingService.cancelMatch matchId caller w)))
     = compute_requests (db w).
Proof.
  rewrite cancelMatch_run.
  destruct (Match.findById matchId (db w)) as [md|];
    [|split; [apply lifecycle_frame_refl|reflexivity]].
  simpl. split; [|reflexivity].
  unfold lifecycle_frame. simpl. repeat split.
  intros k Hk. apply lookup_alter_ne. congruence.
Qed.


(** X3: on an id, the text of a UUID, for which [Match.findById] finds no
    match, the three operations fail with [Match not found] and change
    nothing. *)
Theorem lifecycle_match_not_found
    (w : World) (matchId caller : string) :
  Sql.canonical_uuid matchId = true ->
  Match.findById matchId (db w) = None ->
  MatchingService.acceptMatch matchId caller w = (Throw "Match not found", w)
  /\ MatchingService.completeMatch matchId caller w = (Throw "Match not found", w)
  /\ MatchingService.cancelMatch matchId caller w = (Throw "Match not found", w).
Proof.
  intros _ Hnone.
  unfold MatchingService.acceptMatch, MatchingService.completeMatch,
    MatchingService.cancelMatch.
  unfold catch_rethrow, mbind, M_bind, bind, query, throw.
  rewrite Hnone. repeat split.
Qed.

Lemma lifecycle_match_not_found_witness :
  (Sql.canonical_uuid (Sample.uuid "59") = true
   /\ Match.findById (Sample.uuid "59") (db Sample.uworld) = None)
  /\ MatchingService.acceptMatch (Sample.uuid "59") (Sample.uuid "a2") Sample.uworld
     = (Throw "Match not found", Sample.uworld).
Proof.
  split; [split; vm_compute; reflexivity|].
  refine (proj1 (lifecycle_match_not_found Sample.uworld
                   (Sample.uuid "59") (Sample.uuid "a2") _ _)).
  - vm_compute; reflexivity.
  - vm_compute; reflexivity.
Defined.

(** ** Auto-matching, continued *)

(** [Match.create] when the id is fresh and the references exist. *)
Lemma Match_create_run (env : Env) (w : World) (requestId providerId capabilityId : string)
    (price : number) :
  let id := uuidv4 env (uuid_drawn w) in
  let row := {| m_id := id; m_request_id := requestId; m_provider_id := providerId;
                m_capability_id := Some capabilityId;
                m_agreed_price_per_hour := price;
                m_status := Proposed; m_start_time := None; m_end_time := None;
                m_created_at := now w; m_updated_at := now w |} in
  matches (db w) !! id = None ->
  is_Some (compute_requests (db w) !! requestId) ->
  is_Some (agents (db w) !! providerId) ->
  is_Some (provider_capabilities (db w) !! capabilityId) ->
  Match.create env requestId providerId (Some capabilityId) price w
  = (Ok row,
     {| db := set_matches <[id := row]> (db w); stripe_calls := stripe_calls w;
        uuid_drawn := S (uuid_drawn w); now := now w |}).
Proof.
  intros id row Hfresh Hr Ha Hc.
  unfold Match.create, Match.references_ok. run. fold id.
  rewrite bool_decide_eq_false_2 by (rewrite Hfresh; intros [? ?]; discriminate).
  rewrite !bool_decide_eq_true_2 by assumption.
  reflexivity.
Qed.

(** The first of a sorted non-empty list is one of its elements. *)
Lemma take_1_sort_by {A} (before : A -> A -> bool) (l : list A) :
  l <> [] -> exists x, take 1 (sort_by before l) = [x] /\ x ∈ l.
Proof.
  intros Hne.
  destruct (sort_by before l) as [|x tl] eqn:E.
  - pose proof (sort_by_length before l) as Hlen. rewrite E in Hlen.
    destruct l; [congruence|discriminate].
  - exists x. split; [reflexivity|].
    rewrite <- (sort_by_perm before l), E. apply elem_of_cons. left; reflexivity.
Qed.

(** X4: when the request exists, some listed capability passes the filter
    and the drawn id is fresh, [autoMatch] inserts a [proposed] match
    between the request and a listed capability that passes the filter,
    at that capability's price, and moves the request to [matched]. *)
Theorem autoMatch_proposes_filtered_capability
    (env : Env) (w : World) (requestId : string) (request : ComputeRequestRow)
    (candidate : CapabilityRow) :
  compute_requests (db w) !! requestId = Some request ->
  capabilities_reference_agents (db w) ->
  capabilities_keyed_by_id (db w) ->
  listed (db w) candidate ->
  stated_filter (query_of_row request) candidate ->
  matches (db w) !! uuidv4 env (uuid_drawn w) = None ->
  exists pc m' w',
    MatchingService.autoMatch env requestId w = (Ok (Some m'), w')
    /\ listed (db w) pc
    /\ stated_filter (query_of_row request) pc
    /\ m' = {| m_id := uuidv4 env (uuid_drawn w); m_request_id := requestId;
               m_provider_id := pc_provider_id pc;
               m_capability_id := Some (pc_id pc);
               m_agreed_price_per_hour := pc_price_per_hour pc;
               m_status := Proposed; m_start_time := None; m_end_time := None;
               m_created_at := now w; m_updated_at := now w |}
    /\ matches (db w') !! uuidv4 env (uuid_drawn w) = Some m'
    /\ cr_status <$> compute_requests (db w') !! requestId = Some ReqMatched.
Proof.
  intros Hreq Hfk Hkey [k0 Hk0] Hpass Hfresh.
  set (q := query_of_row request).
  set (rows := ProviderCapability.search (rq_gpu_count q) (rq_gpu_type q)
                 (rq_max_price_per_hour q)
                 (MatchingService.region_or_null (rq_region q)) (db w)).
  assert (rows <> []) as Hne.
  { destruct (Hfk k0 candidate Hk0) as [a Ha].
    assert ({| hit_capability := candidate;
               hit_reputation_score := a_reputation_score a;
               hit_uptime_percentage := a_uptime_percentage a |} ∈ rows) as Hin.
    { apply search_elem. split.
      - exists k0, candidate. split; [exact Hk0|].
        unfold ProviderCapability.join_agent. rewrite Ha. reflexivity.
      - cbn [hit_capability]. apply (where_clause_stated q). exact Hpass. }
    intros E. rewrite E in Hin. inversion Hin. }
  set (score := fun provider =>
         {| sp_provider := provider;
            match_score := calculateMatchScore q (view_of_hit provider) |}).
  destruct (take_1_sort_by MatchingService.score_before (map score rows))
    as (best & Htake & Hbest).
  { destruct rows; [congruence|discriminate]. }
  change (map score rows) with (score <$> rows) in Hbest.
  apply list_elem_of_fmap in Hbest. destruct Hbest as (h & -> & Hh).
  apply search_elem in Hh. destruct Hh as [(k & pc & Hl & Hj) Hw].
  pose proof (join_agent_capability _ _ _ Hj) as Ecap.
  assert (is_Some (agents (db w) !! pc_provider_id pc)) as Hagent.
  { unfold ProviderCapability.join_agent in Hj.
    destruct (agents (db w) !! pc_provider_id pc); [eexists; reflexivity|discriminate]. }
  assert (is_Some (provider_capabilities (db w) !! pc_id pc)) as Hcap.
  { rewrite (Hkey k pc Hl), Hl. eexists; reflexivity. }
  exists pc.
  unfold MatchingService.autoMatch, ComputeRequest.findById.
  unfold catch_rethrow, mbind, M_bind, bind, query at 1.
  rewrite Hreq. cbv beta iota. rewrite findMatches_run. fold q rows score.
  rewrite Htake. cbv beta iota. simpl sp_provider. rewrite Ecap.
  rewrite (Match_create_run env w requestId (pc_provider_id pc) (pc_id pc)
             (pc_price_per_hour pc) Hfresh) by (try assumption; rewrite Hreq; eexists; reflexivity).
  rewrite ComputeRequest_update_run.
  do 2 eexists. split; [reflexivity|].
  split; [exists k; exact Hl|].
  split; [apply (where_clause_stated q); rewrite <- Ecap; exact Hw|].
  split; [reflexivity|]. simpl.
  split; [apply lookup_insert_eq|].
  rewrite lookup_alter_eq, Hreq. reflexivity.
Qed.

Lemma autoMatch_proposes_filtered_capability_witness :
  compute_requests (db (Sample.world_of Sample.store0)) !! "req1" = Some Sample.req1
  /\ exists pc m' w',
       MatchingService.autoMatch Sample.env "req1" (Sample.world_of Sample.store0)
         = (Ok (Some m'), w')
       /\ listed (db (Sample.world_of Sample.store0)) pc
       /\ stated_filter (query_of_row Sample.req1) pc
       /\ m' = {| m_id := uuidv4 Sample.env 0; m_request_id := "req1";
                  m_provider_id := pc_provider_id pc;
                  m_capability_id := Some (pc_id pc);
                  m_agreed_price_per_hour := pc_price_per_hour pc;
                  m_status := Proposed; m_start_time := None; m_end_time := None;
                  m_created_at := 1000; m_updated_at := 1000 |}
       /\ matches (db w') !! uuidv4 Sample.env 0 = Some m'
       /\ cr_status <$> compute_requests (db w') !! "req1" = Some ReqMatched.
Proof.
  split; [vm_compute; reflexivity|].
  refine (autoMatch_proposes_filtered_capability Sample.env
            (Sample.world_of Sample.store0) "req1" Sample.req1
            (Sample.cap "capA" "bob" 45.5%float 100%float Available) _ _ _ _ _ _).
  - vm_compute; reflexivity.
  - refine (bool_decide_unpack _ _). vm_compute. exact I.
  - refine (bool_decide_unpack _ _). vm_compute. exact I.
  - exists "capA". vm_compute. reflexivity.
  - repeat split; try (vm_compute; reflexivity). left; left; reflexivity.
  - vm_compute; reflexivity.
Defined.

(** [autoMatch] when no listed capability passes the [WHERE] clause. *)
Lemma autoMatch_none_run (env : Env) (w : World) (requestId : string)
    (request : ComputeRequestRow) :
  compute_requests (db w) !! requestId = Some request ->
  map_Forall (fun _ pc => ~ stated_filter (query_of_row request) pc)
             (provider_capabilities (db w)) ->
  MatchingService.autoMatch env requestId w = (Ok None, w).
Proof.
  intros Hreq Hnone.
  unfold MatchingService.autoMatch, ComputeRequest.findById.
  unfold catch_rethrow, mbind, M_bind, bind, query at 1.
  rewrite Hreq. cbv beta iota. rewrite findMatches_run.
  rewrite search_nil; [reflexivity|].
  intros k pc Hl. pose proof (Hnone k pc Hl) as Hn. simpl in Hn.
  destruct (ProviderCapability.where_clause _ _ _ _ pc) eqn:E; [|reflexivity].
  exfalso. apply Hn. apply where_clause_stated. exact E.
Qed.

(** X5: for an id, the text of a UUID, under which no request is stored,
    [autoMatch] fails with [Request not found] and the auto-match route
    answers 404; neither changes anything. *)
Theorem autoMatch_request_not_found
    (env : Env) (w : World) (requestId agentId : string) :
  Sql.canonical_uuid requestId = true ->
  compute_requests (db w) !! requestId = None ->
  MatchingService.autoMatch env requestId w = (Throw "Request not found", w)
  /\ RequestRoutes.auto_match env requestId agentId w
     = ({| http_status := 404;
           http_body := formatError "Request not found" 404 None (now w) |}, w).
Proof.
  intros _ Hnone. split.
  - unfold MatchingService.autoMatch, ComputeRequest.findById.
    unfold catch_rethrow, mbind, M_bind, bind, query, throw. rewrite Hnone. reflexivity.
  - unfold RequestRoutes.auto_match, ComputeRequest.findById. rewrite Hnone. reflexivity.
Qed.

Lemma autoMatch_request_not_found_witness :
  (Sql.canonical_uuid (Sample.uuid "49") = true
   /\ compute_requests (db Sample.uworld) !! Sample.uuid "49" = None)
  /\ MatchingService.autoMatch Sample.env (Sample.uuid "49") Sample.uworld
     = (Throw "Request not found", Sample.uworld).
Proof.
  split; [split; vm_compute; reflexivity|].
  refine (proj1 (autoMatch_request_not_found Sample.env Sample.uworld
                   (Sample.uuid "49") (Sample.uuid "a1") _ _)).
  - vm_compute; reflexivity.
  - vm_compute; reflexivity.
Defined.

(** X6: the auto-match route serves only the request's owner: any other
    caller gets 403 and nothing is changed, so no match is created and
    the request keeps its status. *)
Theorem auto_match_route_owner_only
    (env : Env) (w : World) (requestId agentId : string) (request : ComputeRequestRow) :
  compute_requests (db w) !! requestId = Some request ->
  cr_requester_id request <> agentId ->
  RequestRoutes.auto_match env requestId agentId w
  = ({| http_status := 403;
        http_body := formatError "Unauthorized" 403 None (now w) |}, w).
Proof.
  intros Hreq Hne. unfold RequestRoutes.auto_match, ComputeRequest.findById.
  rewrite Hreq. apply String.eqb_neq in Hne. rewrite Hne. reflexivity.
Qed.

Lemma auto_match_route_owner_only_witness :
  compute_requests (db (Sample.world_of Sample.store0)) !! "req1" = Some Sample.req1
  /\ RequestRoutes.auto_match Sample.env "req1" "bob" (Sample.world_of Sample.store0)
     = ({| http_status := 403;
           http_body := formatError "Unauthorized" 403 None 1000 |},
        Sample.world_of Sample.store0).
Proof.
  split; [vm_compute; reflexivity|].
  refine (auto_match_route_owner_only Sample.env (Sample.world_of Sample.store0)
            "req1" "bob" Sample.req1 _ _).
  - vm_compute; reflexivity.
  - discriminate.
Defined.



(** ** Match routes *)

(** X8: when the caller is not the match's provider, the accept and
    complete routes answer 403 with the service's Unauthorized message
    and nothing is changed. *)
Theorem match_routes_forbid_non_provider
    (w : World) (matchId agentId : string) (md : MatchDetails) :
  Match.findById matchId (db w) = Some md ->
  agentId <> m_provider_id (md_match md) ->
  MatchRoutes.accept matchId agentId w
  = ({| http_status := 403;
        http_body :=
          formatError "Unauthorized: Only the provider can accept this match" 403
            (Some "Unauthorized: Only the provider can accept this match") (now w) |}, w)
  /\ MatchRoutes.complete matchId agentId w
  = ({| http_status := 403;
        http_body :=
          formatError "Unauthorized: Only the provider can complete this match" 403
            (Some "Unauthorized: Only the provider can complete this match") (now w) |}, w).
Proof.
  intros Hfind Hne.
  assert (String.eqb (m_provider_id (md_match md)) agentId = false) as E.
  { apply String.eqb_neq. congruence. }
  unfold MatchRoutes.accept, MatchRoutes.complete,
    MatchingService.acceptMatch, MatchingService.completeMatch.
  unfold catch_rethrow, mbind, M_bind, bind, query, throw.
  rewrite Hfind, E. split; reflexivity.
Qed.

Lemma match_routes_forbid_non_provider_witness :
  Match.findById "match1" (db (Sample.with_match Proposed))
    = Some (Sample.details1 Proposed)
  /\ http_status (fst (MatchRoutes.accept "match1" "carol" (Sample.with_match Proposed)))
     = 403%Z.
Proof.
  split; [vm_compute; reflexivity|].
  rewrite (proj1 (match_routes_forbid_non_provider (Sample.with_match Proposed)
                    "match1" "carol" (Sample.details1 Proposed) eq_refl
                    ltac:(discriminate))).
  reflexivity.
Defined.

(** X9: for an id, the text of a UUID, for which no match is found, the
    accept and complete routes answer 500 with [Match not found], and
    the cancel route 500 with [Failed to cancel match]; none answers 404
    and nothing is changed. *)
Theorem match_routes_missing_match_is_500
    (w : World) (matchId agentId : string) :
  Sql.canonical_uuid matchId = true ->
  Match.findById matchId (db w) = None ->
  MatchRoutes.accept matchId agentId w
  = ({| http_status := 500;
        http_body := formatError "Match not found" 500 (Some "Match not found") (now w) |},
     w)
  /\ MatchRoutes.complete matchId agentId w
  = ({| http_status := 500;
        http_body := formatError "Match not found" 500 (Some "Match not found") (now w) |},
     w)
  /\ MatchRoutes.cancel matchId agentId w
  = ({| http_status := 500;
        http_body := formatError "Failed to cancel match" 500 (Some "Match not found")
                       (now w) |}, w).
Proof.
  intros _ Hnone.
  unfold MatchRoutes.accept, MatchRoutes.complete, MatchRoutes.cancel,
    MatchingService.acceptMatch, MatchingService.completeMatch,
    MatchingService.cancelMatch.
  unfold catch_rethrow, mbind, M_bind, bind, query, throw.
  rewrite Hnone. repeat split.
Qed.

Lemma match_routes_missing_match_is_500_witness :
  (Sql.canonical_uuid (Sample.uuid "59") = true
   /\ Match.findById (Sample.uuid "59") (db Sample.uworld) = None)
  /\ http_status (fst (MatchRoutes.cancel (Sample.uuid "59") (Sample.uuid "a2")
                         Sample.uworld))
     = 500%Z.
Proof.
  split; [split; vm_compute; reflexivity|].
  rewrite (proj2 (proj2 (match_routes_missing_match_is_500 Sample.uworld
                           (Sample.uuid "59") (Sample.uuid "a2") eq_refl eq_refl))).
  reflexivity.
Defined.

(** ** Escrow, continued *)

Lemma alter_absent {A} (f : A -> A) (k : string) (m : gmap string A) :
  m !! k = None -> alter f k m = m.
Proof.
  intros Hk. apply map_eq. intros i. rewrite lookup_alter.
  destruct (decide (k = i)) as [->|]; [rewrite Hk|]; reflexivity.
Qed.

(** An [UPDATE] of a transaction that does not exist changes nothing. *)
Lemma update_absent_transaction (f : TransactionRow -> TransactionRow) (id : string)
    (s : Store) :
  transactions s !! id = None -> set_transactions (alter f id) s = s.
Proof.
  intros Hk. destruct s as [a p c m t v]; simpl in *.
  unfold set_transactions; simpl. rewrite alter_absent by exact Hk. reflexivity.
Qed.

Lemma update_absent_transaction_world (f : TransactionRow -> TransactionRow)
    (id : string) (w : World) :
  transactions (db w) !! id = None -> set_db (set_transactions (alter f id)) w = w.
Proof.
  intros Hk. destruct w as [s c u t]; unfold set_db; simpl in *.
  rewrite update_absent_transaction by exact Hk. reflexivity.
Qed.

(** X10: when [createPaymentIntent] fails, the database is as before: no
    transaction row is stored.  The processor was asked for the hold
    all the same, and a hold it granted is not released. *)
Theorem createPaymentIntent_failure_stores_nothing
    (env : Env) (w w' : World) (matchId requesterId providerId : string)
    (amount : number) (e : string) :
  PaymentService.createPaymentIntent env matchId amount requesterId providerId w
    = (Throw e, w') ->
  db w' = db w
  /\ stripe_calls w'
     = (stripe_calls w
          ++ [PaymentIntentsCreate (Js.Math_round (amount * 100)%float) "usd"
                matchId requesterId providerId
                ("Whalen Protocol - Compute Match " ++ matchId)])%list.
Proof.
  unfold PaymentService.createPaymentIntent, PaymentService.insert_transaction. run.
  destruct (stripe_paymentIntents_create env _ _); simpl.
  - destruct (negb (Sql.numeric_18_8_accepts amount)); simpl.
    + intros H; inversion H; subst; split; reflexivity.
    + destruct (bool_decide _); simpl.
      * intros H; inversion H; subst; split; reflexivity.
      * destruct (negb _); simpl; intros H; inversion H; subst; split; reflexivity.
  - intros H; inversion H; subst; split; reflexivity.
Qed.

Lemma createPaymentIntent_failure_stores_nothing_witness :
  exists w',
    PaymentService.createPaymentIntent Sample.refusing_env "match1" 91%float
      "alice" "bob" (Sample.with_match Accepted)
    = (Throw "Payment intent creation failed: Your card was declined.", w')
    /\ db w' = db (Sample.with_match Accepted).
Proof.
  eexists. split; [vm_compute; reflexivity|].
  refine (proj1 (createPaymentIntent_failure_stores_nothing Sample.refusing_env
                   (Sample.with_match Accepted) _ "match1" "alice" "bob" 91%float
                   "Payment intent creation failed: Your card was declined." _)).
  vm_compute; reflexivity.
Defined.

(** X11: when [confirmPayment] fails, whether the processor fails, the
    intent has not succeeded or the transaction does not exist, the
    database is as before; and an intent whose status is not
    [succeeded] is refused with that status in the message. *)
Theorem confirmPayment_failure_changes_nothing
    (env : Env) (w w' : World) (paymentIntentId transactionId e : string) :
  PaymentService.confirmPayment env paymentIntentId transactionId w = (Throw e, w') ->
  db w' = db w
  /\ stripe_calls w' = (stripe_calls w ++ [PaymentIntentsRetrieve paymentIntentId])%list
  /\ (forall intent,
        stripe_paymentIntents_retrieve env (stripe_calls w) paymentIntentId = Ok intent ->
        pi_status intent <> "succeeded" ->
        e = "Payment confirmation failed: Payment not succeeded. Status: "
              ++ pi_status intent).
Proof.
  unfold PaymentService.confirmPayment. run.
  destruct (stripe_paymentIntents_retrieve env _ _) as [intent|msg]; simpl.
  - destruct (String.eqb (pi_status intent) "succeeded") eqn:Es; simpl.
    + destruct (alter _ transactionId (transactions (db w)) !! transactionId)
        as [row|] eqn:El; simpl; [discriminate|].
      intros H; inversion H; subst; clear H. simpl.
      rewrite lookup_alter_eq in El.
      destruct (transactions (db w) !! transactionId) eqn:Et; [discriminate|].
      split; [apply update_absent_transaction; exact Et|].
      split; [reflexivity|].
      intros intent' Hi Hs. inversion Hi; subst.
      apply String.eqb_eq in Es. contradiction.
    + intros H; inversion H; subst; clear H. simpl.
      split; [reflexivity|]. split; [reflexivity|].
      intros intent' Hi _. inversion Hi; subst. reflexivity.
  - intros H; inversion H; subst; clear H. simpl.
    split; [reflexivity|]. split; [reflexivity|].
    intros intent' Hi. discriminate.
Qed.

Lemma confirmPayment_failure_changes_nothing_witness :
  exists w',
    PaymentService.confirmPayment Sample.refusing_env "pi_1" "uuid-0"
      Sample.escrowed_world
    = (Throw "Payment confirmation failed: Payment not succeeded. Status: requires_payment_method",
       w')
    /\ db w' = db Sample.escrowed_world.
Proof.
  eexists. split; [vm_compute; reflexivity|].
  refine (proj1 (confirmPayment_failure_changes_nothing Sample.refusing_env
                   Sample.escrowed_world _ "pi_1" "uuid-0" _ _)).
  vm_compute; reflexivity.
Defined.

(** X12: [releasePayment] does not read the status.  On any existing
    transaction it settles, and a later refund that the processor grants
    also succeeds: the transaction ends [refunded] after having been
    [settled], with one refund requested against the stored reference. *)
Theorem releasePayment_has_no_status_guard
    (env : Env) (w : World) (transactionId : string) (row : TransactionRow) :
  transactions (db w) !! transactionId = Some row ->
  stripe_refunds_create env (stripe_calls w) (t_transaction_hash row) = Ok tt ->
  exists row1 w1 row2 w2,
    PaymentService.releasePayment env transactionId true w = (Ok (Some row1), w1)
    /\ status_of transactionId w1 = Some Settled
    /\ stripe_calls w1 = stripe_calls w
    /\ PaymentService.releasePayment env transactionId false w1 = (Ok (Some row2), w2)
    /\ status_of transactionId w2 = Some Refunded
    /\ stripe_calls w2
       = (stripe_calls w ++ [RefundsCreate (t_transaction_hash row)])%list.
Proof.
  intros Hrow Hrefund.
  do 4 eexists.
  split; [apply releasePayment_settles; exact Hrow|].
  split; [unfold status_of; simpl; rewrite lookup_alter_eq, Hrow; reflexivity|].
  split; [reflexivity|].
  split.
  { apply releasePayment_refunds.
    - simpl. rewrite lookup_alter_eq, Hrow. reflexivity.
    - simpl. exact Hrefund. }
  split; [unfold status_of; simpl; rewrite !lookup_alter_eq, Hrow; reflexivity|].
  reflexivity.
Qed.

Lemma releasePayment_has_no_status_guard_witness :
  transactions (db Sample.escrowed_world) !! "uuid-0" = Some Sample.escrowed_row
  /\ exists row1 w1 row2 w2,
       PaymentService.releasePayment Sample.env "uuid-0" true Sample.escrowed_world
         = (Ok (Some row1), w1)
       /\ status_of "uuid-0" w1 = Some Settled
       /\ stripe_calls w1 = stripe_calls Sample.escrowed_world
       /\ PaymentService.releasePayment Sample.env "uuid-0" false w1 = (Ok (Some row2), w2)
       /\ status_of "uuid-0" w2 = Some Refunded
       /\ stripe_calls w2
          = (stripe_calls Sample.escrowed_world ++ [RefundsCreate (Some "pi_1")])%list.
Proof.
  split; [vm_compute; reflexivity|].
  refine (releasePayment_has_no_status_guard Sample.env Sample.escrowed_world
            "uuid-0" Sample.escrowed_row _ _).
  - vm_compute; reflexivity.
  - reflexivity.
Defined.

(** X13: on an id, the text of a UUID, under which no transaction is
    stored, [releasePayment] fails with [Transaction not found] and
    changes nothing; with [verified = false] no refund is requested. *)
Theorem releasePayment_transaction_not_found
    (env : Env) (w : World) (transactionId : string) (verified : bool) :
  Sql.canonical_uuid transactionId = true ->
  transactions (db w) !! transactionId = None ->
  PaymentService.releasePayment env transactionId verified w
  = (Throw "Payment release failed: Transaction not found", w).
Proof.
  intros _ Hnone. unfold PaymentService.releasePayment, PaymentService.update_status.
  destruct verified.
  - unfold catch_rewrap, mbind, M_bind, bind, query, exec, throw. cbn [negb].
    rewrite update_absent_transaction_world by exact Hnone.
    rewrite Hnone. reflexivity.
  - run. rewrite Hnone. reflexivity.
Qed.

Lemma releasePayment_transaction_not_found_witness :
  (Sql.canonical_uuid (Sample.uuid "79") = true
   /\ transactions (db Sample.uworld) !! Sample.uuid "79" = None)
  /\ PaymentService.releasePayment Sample.env (Sample.uuid "79") false Sample.uworld
     = (Throw "Payment release failed: Transaction not found", Sample.uworld).
Proof.
  split; [split; vm_compute; reflexivity|].
  refine (releasePayment_transaction_not_found Sample.env Sample.uworld
            (Sample.uuid "79") false _ _).
  - vm_compute; reflexivity.
  - vm_compute; reflexivity.
Defined.

(** X14: when the processor refuses the refund, [releasePayment(.., false)]
    fails with the processor's message and the transaction keeps its row,
    hence its status; the refund was requested once. *)
Theorem releasePayment_refused_refund_keeps_status
    (env : Env) (w : World) (transactionId e : string) (row : TransactionRow) :
  transactions (db w) !! transactionId = Some row ->
  stripe_refunds_create env (stripe_calls w) (t_transaction_hash row) = Throw e ->
  exists w',
    PaymentService.releasePayment env transactionId false w
      = (Throw ("Payment release failed: " ++ e), w')
    /\ db w' = db w
    /\ transactions (db w') !! transactionId = Some row
    /\ stripe_calls w'
       = (stripe_calls w ++ [RefundsCreate (t_transaction_hash row)])%list.
Proof.
  intros Hrow Hrefund. unfold PaymentService.releasePayment. run.
  rewrite Hrow. simpl. rewrite Hrefund. simpl.
  eexists. split; [reflexivity|]. simpl. repeat split. exact Hrow.
Qed.

Lemma releasePayment_refused_refund_keeps_status_witness :
  transactions (db Sample.escrowed_world) !! "uuid-0" = Some Sample.escrowed_row
  /\ exists w',
       PaymentService.releasePayment Sample.refusing_env "uuid-0" false
         Sample.escrowed_world
         = (Throw ("Payment release failed: " ++ "Charge has already been refunded."), w')
       /\ db w' = db Sample.escrowed_world
       /\ transactions (db w') !! "uuid-0" = Some Sample.escrowed_row
       /\ stripe_calls w'
          = (stripe_calls Sample.escrowed_world ++ [RefundsCreate (Some "pi_1")])%list.
Proof.
  split; [vm_compute; reflexivity|].
  refine (releasePayment_refused_refund_keeps_status Sample.refusing_env
            Sample.escrowed_world "uuid-0" _ Sample.escrowed_row _ _).
  - vm_compute; reflexivity.
  - reflexivity.
Defined.

(** Membership in the rows of [getAgentTransactions]. *)
Lemma getAgentTransactions_elem (agentId : string) (role : option string) (w : World)
    (d : PaymentService.TransactionDetails) :
  exists rows,
    PaymentService.getAgentTransactions agentId role w = (Ok rows, w)
    /\ (d ∈ rows <->
        (exists k t, transactions (db w) !! k = Some t
                     /\ PaymentService.join_details (db w) t = Some d)
        /\ PaymentService.role_clause agentId role (PaymentService.td_transaction d)
           = true).
Proof.
  eexists. split; [reflexivity|].
  rewrite sort_by_perm.
  rewrite list_elem_of_In, filter_In, <- list_elem_of_In, list_elem_of_omap.
  split.
  - intros [[[k t] [Hin Hj]] Hr]. split; [|exact Hr].
    exists k, t. split; [|exact Hj]. apply elem_of_map_to_list in Hin. exact Hin.
  - intros [(k & t & Hl & Hj) Hr]. split; [|exact Hr].
    exists (k, t). split; [|exact Hj]. apply elem_of_map_to_list. exact Hl.
Qed.

Lemma join_details_transaction (s : Store) (t : TransactionRow)
    (d : PaymentService.TransactionDetails) :
  PaymentService.join_details s t = Some d -> PaymentService.td_transaction d = t.
Proof.
  unfold PaymentService.join_details.
  destruct (matches s !! t_match_id t) as [m|]; simpl; [|discriminate].
  destruct (compute_requests s !! m_request_id m); simpl; [|discriminate].
  destruct (agents s !! t_requester_id t); simpl; [|discriminate].
  destruct (agents s !! t_provider_id t); simpl; [|discriminate].
  intros E; inversion E; reflexivity.
Qed.

(** X16: for an agent id that is the text of a UUID,
    [getAgentTransactions] does not fail, writes nothing and returns
    rows of the transactions table only; each returned transaction has
    the agent as requester when [role] is ['requester'], as provider when
    it is ['provider'], and as one of the two for any other role.  With
    no role, every transaction of the agent whose match, request and
    agents are found by the joins is returned. *)
Theorem getAgentTransactions_shows_own_transactions
    (agentId : string) (role : option string) (w : World) :
  Sql.canonical_uuid agentId = true ->
  exists rows,
    PaymentService.getAgentTransactions agentId role w = (Ok rows, w)
    /\ (forall d, d ∈ rows ->
         let t := PaymentService.td_transaction d in
         (exists k, transactions (db w) !! k = Some t)
         /\ (t_requester_id t = agentId \/ t_provider_id t = agentId)
         /\ (role = Some "requester" -> t_requester_id t = agentId)
         /\ (role = Some "provider" -> t_provider_id t = agentId))
    /\ (forall k t d,
         transactions (db w) !! k = Some t ->
         PaymentService.join_details (db w) t = Some d ->
         role = None ->
         t_requester_id t = agentId \/ t_provider_id t = agentId ->
         d ∈ rows).
Proof.
  intros _.
  eexists. split; [reflexivity|]. split; cycle 1.
  { intros k t d Hl Hj -> Hmine.
    destruct (getAgentTransactions_elem agentId None w d) as (rows & Hrun & Hiff).
    inversion Hrun; subst rows; clear Hrun. apply Hiff. split.
    - exists k, t. split; assumption.
    - rewrite (join_details_transaction _ _ _ Hj).
      unfold PaymentService.role_clause. simpl.
      apply orb_true_iff. rewrite !String.eqb_eq. exact Hmine. }
  intros d Hd t.
  destruct (getAgentTransactions_elem agentId role w d) as (rows & Hrun & Hiff).
  inversion Hrun; subst rows; clear Hrun.
  apply Hiff in Hd. destruct Hd as [(k & t' & Hl & Hj) Hr].
  pose proof (join_details_transaction _ _ _ Hj) as Et. fold t in Et, Hr. subst t'.
  split; [exists k; exact Hl|].
  unfold PaymentService.role_clause in Hr.
  destruct (bool_decide (role = Some "requester")) eqn:E1.
  - apply bool_decide_eq_true_1 in E1. apply String.eqb_eq in Hr.
    split; [left; exact Hr|]. split; [intros _; exact Hr|].
    intros E2. rewrite E1 in E2. discriminate.
  - apply bool_decide_eq_false_1 in E1.
    destruct (bool_decide (role = Some "provider")) eqn:E2.
    + apply bool_decide_eq_true_1 in E2. apply String.eqb_eq in Hr.
      split; [right; exact Hr|]. split; [intros E; contradiction|intros _; exact Hr].
    + apply bool_decide_eq_false_1 in E2. apply orb_true_iff in Hr.
      rewrite !String.eqb_eq in Hr.
      split; [exact Hr|]. split; intros E; contradiction.
Qed.

Lemma getAgentTransactions_shows_own_transactions_witness :
  Sql.canonical_uuid (Sample.uuid "a1") = true
  /\ exists rows,
       PaymentService.getAgentTransactions (Sample.uuid "a1") None Sample.uworld
         = (Ok rows, Sample.uworld)
       /\ {| PaymentService.td_transaction := Sample.utx;
             PaymentService.td_agreed_price_per_hour := 45.5%float;
             PaymentService.td_duration_hours := 2%float;
             PaymentService.td_requester_name := "Ann";
             PaymentService.td_provider_name := "Ben" |} ∈ rows.
Proof.
  split; [vm_compute; reflexivity|].
  destruct (getAgentTransactions_shows_own_transactions (Sample.uuid "a1") None
              Sample.uworld) as (rows & Hrun & _ & Hall).
  - vm_compute; reflexivity.
  - exists rows. split; [exact Hrun|].
    apply (Hall (Sample.uuid "71") Sample.utx).
    + vm_compute; reflexivity.
    + vm_compute; reflexivity.
    + reflexivity.
    + left; reflexivity.
Defined.

(** ** Verification, continued *)

(** X17: [submitProof] by anyone but the transaction's provider, or on a
    transaction that does not exist, fails with [Transaction not found or
    unauthorized]; the database is as before.  Both ids are texts of
    UUIDs, as the query requires. *)
Theorem submitProof_provider_only
    {ProofData : Type} (JSON_stringify : ProofData -> option string)
    (sha256_hex : string -> string) (jsonb_in : string -> result string)
    (env : Env) (w : World) (transactionId providerId : string)
    (proofData : ProofData) (text : string) :
  Sql.canonical_uuid transactionId = true ->
  Sql.canonical_uuid providerId = true ->
  JSON_stringify proofData = Some text ->
  (forall t, transactions (db w) !! transactionId = Some t ->
             t_provider_id t <> providerId) ->
  exists w',
    VerificationService.submitProof JSON_stringify sha256_hex jsonb_in env
      transactionId providerId proofData w
    = (Throw "Proof submission failed: Transaction not found or unauthorized", w')
    /\ db w' = db w
    /\ stripe_calls w' = stripe_calls w.
Proof.
  intros _ _ Htext Hnot.
  unfold VerificationService.submitProof, VerificationService.generateProofHash,
    VerificationService.of_result, VerificationService.transaction_of_provider.
  run. rewrite Htext. simpl.
  destruct (transactions (db w) !! transactionId) as [t|] eqn:Et; simpl.
  - specialize (Hnot t eq_refl). apply String.eqb_neq in Hnot. rewrite Hnot.
    eexists. repeat split.
  - eexists. repeat split.
Qed.

Lemma submitProof_provider_only_witness :
  (Sql.canonical_uuid (Sample.uuid "71") = true
   /\ Sql.canonical_uuid (Sample.uuid "a1") = true
   /\ t_provider_id <$> transactions (db Sample.uworld) !! Sample.uuid "71"
      = Some (Sample.uuid "a2"))
  /\ exists w',
    VerificationService.submitProof (fun d : string => Some d) (fun s => "h:" ++ s)
      (fun s => Ok s) Sample.env (Sample.uuid "71") (Sample.uuid "a1") "{}" Sample.uworld
    = (Throw "Proof submission failed: Transaction not found or unauthorized", w')
    /\ db w' = db Sample.uworld
    /\ stripe_calls w' = stripe_calls Sample.uworld.
Proof.
  split; [repeat split; vm_compute; reflexivity|].
  refine (submitProof_provider_only (fun d : string => Some d) (fun s => "h:" ++ s)
            (fun s => Ok s) Sample.env Sample.uworld (Sample.uuid "71") (Sample.uuid "a1")
            "{}" "{}" _ _ eq_refl _).
  - vm_compute; reflexivity.
  - vm_compute; reflexivity.
  - intros t Ht. vm_compute in Ht. inversion Ht. vm_compute. discriminate.
Defined.

(** X18: [submitProof] by the transaction's provider, with a serialisable
    payload that the [JSONB] column accepts, a hash of at most 255
    characters and a fresh id, stores an unverified verification whose
    [proof_hash] is the hash of the payload's JSON text, whose
    [proof_data] is what the column keeps of that text and whose
    [verifier_id] is the provider; [verifyProofHash] accepts the stored
    hash for that payload, and the transaction is untouched. *)
Theorem submitProof_stores_checkable_hash
    {ProofData : Type} (JSON_stringify : ProofData -> option string)
    (sha256_hex : string -> string) (jsonb_in : string -> result string)
    (env : Env) (w : World) (transactionId providerId : string)
    (proofData : ProofData) (text kept : string) (t : TransactionRow) :
  JSON_stringify proofData = Some text ->
  jsonb_in text = Ok kept ->
  Sql.varchar_accepts 255 (sha256_hex text) = true ->
  transactions (db w) !! transactionId = Some t ->
  t_provider_id t = providerId ->
  is_Some (agents (db w) !! providerId) ->
  verifications (db w) !! uuidv4 env (uuid_drawn w) = None ->
  exists row w',
    VerificationService.submitProof JSON_stringify sha256_hex jsonb_in env
      transactionId providerId proofData w = (Ok row, w')
    /\ row = {| v_id := uuidv4 env (uuid_drawn w); v_transaction_id := transactionId;
                v_verifier_id := Some providerId;
                v_proof_hash := Some (sha256_hex text);
                v_proof_data := Some kept; v_verified := false; v_notes := None;
                v_created_at := now w; v_updated_at := now w |}
    /\ verifications (db w') !! uuidv4 env (uuid_drawn w) = Some row
    /\ VerificationService.verifyProofHash JSON_stringify sha256_hex
         (sha256_hex text) proofData = Ok true
    /\ transactions (db w') = transactions (db w)
    /\ matches (db w') = matches (db w).
Proof.
  intros Htext Hkept Hlen Ht Hp Ha Hfresh.
  unfold VerificationService.submitProof, VerificationService.generateProofHash,
    VerificationService.of_result, VerificationService.transaction_of_provider,
    VerificationService.insert_verification, VerificationService.references_ok,
    VerificationService.verifyProofHash, VerificationService.proof_data_in.
  run. rewrite Htext. simpl. rewrite Ht. simpl.
  rewrite Hp, eqb_string_refl. simpl. rewrite Hlen. simpl. rewrite Hkept. simpl.
  rewrite bool_decide_eq_false_2 by (rewrite Hfresh; intros [? ?]; discriminate).
  rewrite (bool_decide_eq_true_2 (is_Some (transactions (db w) !! transactionId)))
    by (rewrite Ht; eexists; reflexivity).
  rewrite (bool_decide_eq_true_2 _ Ha). simpl.
  do 2 eexists. split; [reflexivity|]. split; [reflexivity|]. simpl.
  split; [apply lookup_insert_eq|].
  unfold VerificationService.generateProofHash. rewrite Htext, eqb_string_refl.
  repeat split.
Qed.

Lemma submitProof_stores_checkable_hash_witness :
  transactions (db Sample.escrowed_world) !! "uuid-0" = Some Sample.escrowed_row
  /\ exists row w',
       VerificationService.submitProof (fun d : string => Some d) (fun s => "h:" ++ s)
         (fun s => Ok s) Sample.env "uuid-0" "bob" "{}" Sample.escrowed_world = (Ok row, w')
       /\ v_proof_hash row = Some "h:{}"
       /\ v_verified row = false.
Proof.
  split; [vm_compute; reflexivity|].
  destruct (submitProof_stores_checkable_hash (fun d : string => Some d)
              (fun s => "h:" ++ s) (fun s => Ok s) Sample.env Sample.escrowed_world
              "uuid-0" "bob" "{}" "{}" "{}" Sample.escrowed_row)
    as (row & w' & Hrun & Hrow & _).
  - reflexivity.
  - reflexivity.
  - reflexivity.
  - vm_compute; reflexivity.
  - reflexivity.
  - eexists; vm_compute; reflexivity.
  - vm_compute; reflexivity.
  - exists row, w'. split; [exact Hrun|]. rewrite Hrow. split; reflexivity.
Defined.





(** X21: the join of [getPendingVerifications] with [compute_requests]
    compares the transaction's match id with that match's request id.
    In a store where no match is stored under the id of its own request
    the list is therefore empty, for every agent (the id being the text
    of a UUID) and whatever verifications are pending. *)
Theorem getPendingVerifications_is_empty (w : World) (agentId : string) :
  Sql.canonical_uuid agentId = true ->
  map_Forall (fun k m => m_request_id m <> k) (matches (db w)) ->
  VerificationService.getPendingVerifications agentId w = (Ok [], w).
Proof.
  intros _ Hdistinct. unfold VerificationService.getPendingVerifications. run.
  assert (forall l : list (string * VerificationRow),
            flat_map (fun kv => VerificationService.pending_rows_of agentId (db w) (snd kv)) l
            = []) as Hnil.
  { induction l as [|[k v] l IH]; [reflexivity|]. simpl. rewrite IH, app_nil_r.
    unfold VerificationService.pending_rows_of.
    destruct (transactions (db w) !! v_transaction_id v) as [t|]; [|reflexivity].
    destruct (agents (db w) !! t_provider_id t); [|reflexivity].
    unfold VerificationService.on_compute_requests.
    destruct (matches (db w) !! t_match_id t) as [m|] eqn:Em.
    - pose proof (Hdistinct _ _ Em) as Hne. simpl in Hne.
      assert (String.eqb (t_match_id t) (m_request_id m) = false) as E.
      { apply String.eqb_neq. congruence. }
      rewrite E, andb_false_r. reflexivity.
    - rewrite andb_false_r. reflexivity. }
  rewrite Hnil. reflexivity.
Qed.

Lemma getPendingVerifications_is_empty_witness :
  (Sql.canonical_uuid (Sample.uuid "a1") = true
   /\ v_verified <$> verifications (db Sample.uworld) !! Sample.uuid "e1" = Some false
   /\ t_requester_id <$> transactions (db Sample.uworld) !! Sample.uuid "71"
      = Some (Sample.uuid "a1"))
  /\ VerificationService.getPendingVerifications (Sample.uuid "a1") Sample.uworld
     = (Ok [], Sample.uworld).
Proof.
  split; [repeat split; vm_compute; reflexivity|].
  refine (getPendingVerifications_is_empty Sample.uworld (Sample.uuid "a1") _ _).
  - vm_compute; reflexivity.
  - refine (bool_decide_unpack _ _). vm_compute. exact I.
Defined.

(** [verifyWork], run on an existing verification with a registered
    verifier. *)
Lemma verifyWork_run
    (w : World) (verificationId verifierId notes : string) (approved : bool)
    (verif : VerificationRow) :
  verifications (db w) !! verificationId = Some verif ->
  is_Some (agents (db w) !! verifierId) ->
  let decided := VerificationService.decide_verification approved verifierId notes
                   (now w) verif in
  let w1 := set_db (set_verifications
                      (alter (VerificationService.decide_verification approved
                                verifierId notes (now w)) verificationId)) w in
  let w2 := set_db (set_transactions
                      (alter (fun row => PaymentService.with_status Verified
                                           (t_transaction_hash row) (now w) row)
                             (v_transaction_id verif))) w1 in
  VerificationService.verifyWork verificationId verifierId approved notes w
  = (Ok (Some decided),
     if approved then
       match transactions (db w2) !! v_transaction_id verif with
       | Some row =>
           set_db (set_matches
                     (alter (fun m => Match.touch (now w)
                                        (Match.assign m (Match.SetStatus Completed)))
                            (t_match_id row))) w2
       | None => w2
       end
     else w1).
Proof.
  intros Hv Ha decided w1 w2.
  pose proof (update_verification_run w verificationId verifierId notes approved verif Hv Ha)
    as Hu.
  unfold VerificationService.verifyWork.
  unfold catch_rewrap, mbind, M_bind, bind, query at 1.
  rewrite Hv. cbv beta iota. rewrite Hu. cbv beta iota.
  destruct approved.
  - rewrite PaymentService_update_status_run. fold w1 w2. run.
    destruct (alter _ (v_transaction_id verif) (transactions (db w)) !! v_transaction_id verif);
      reflexivity.
  - reflexivity.
Qed.





(** ** Capabilities *)

Lemma where_clause_available (gpuCount : number) (gpuType : string) (maxPrice : number)
    (region : option string) (pc : CapabilityRow) :
  ProviderCapability.where_clause gpuCount gpuType maxPrice region pc = true ->
  pc_availability_status pc = Available.
Proof.
  unfold ProviderCapability.where_clause. rewrite !andb_true_iff.
  intros [[_ H] _]. apply AvailabilityStatus_eqb_eq. exact H.
Qed.

(** X24: a capability registered by an agent, with a fresh id and values
    that the columns accept (integer counts, a type of at most 50 and a
    region of at most 100 characters, a price below 10^10 in magnitude),
    is stored [available] with 0 available hours, in region [us-east-1]
    unless one is given, at the price that the column keeps; it is at once
    a row of every search, for an integer count and a finite price
    ceiling, whose [WHERE] clause it satisfies. *)
Theorem created_capability_is_discoverable
    (env : Env) (w : World) (providerId gpuType : string)
    (gpuCount cpuCores memoryGb pricePerHour : number) (region : option string)
    (a : AgentRow) :
  agents (db w) !! providerId = Some a ->
  provider_capabilities (db w) !! uuidv4 env (uuid_drawn w) = None ->
  Sql.int4_accepts gpuCount = true ->
  Sql.int4_accepts cpuCores = true ->
  Sql.int4_accepts memoryGb = true ->
  Sql.varchar_accepts 50 gpuType = true ->
  Sql.varchar_accepts 100 (default "us-east-1" region) = true ->
  Sql.numeric_18_8_accepts pricePerHour = true ->
  exists row w',
    ProviderCapability.create env providerId gpuCount gpuType cpuCores memoryGb
      pricePerHour region w = (Ok row, w')
    /\ row = {| pc_id := uuidv4 env (uuid_drawn w); pc_provider_id := providerId;
                pc_gpu_count := Sql.int4 gpuCount; pc_gpu_type := gpuType;
                pc_cpu_cores := Sql.int4 cpuCores; pc_memory_gb := Sql.int4 memoryGb;
                pc_price_per_hour := numeric_18_8 env pricePerHour;
                pc_available_hours := 0%float;
                pc_region := Some (default "us-east-1" region);
                pc_availability_status := Available |}
    /\ provider_capabilities (db w') !! uuidv4 env (uuid_drawn w) = Some row
    /\ forall wantCount wantType maxPrice wantRegion,
         Sql.int4_accepts wantCount = true ->
         Sql.finite maxPrice = true ->
         ProviderCapability.where_clause wantCount wantType maxPrice wantRegion row = true ->
         {| hit_capability := row; hit_reputation_score := a_reputation_score a;
            hit_uptime_percentage := a_uptime_percentage a |}
         ∈ ProviderCapability.search wantCount wantType maxPrice wantRegion (db w').
Proof.
  intros Ha Hfresh Hg Hc Hm Ht Hr Hp. unfold ProviderCapability.create. run.
  rewrite Hg, Hc, Hm, Ht, Hr, Hp. simpl.
  rewrite bool_decide_eq_false_2 by (rewrite Hfresh; intros [? ?]; discriminate).
  rewrite bool_decide_eq_true_2 by (rewrite Ha; eexists; reflexivity). simpl.
  do 2 eexists. split; [reflexivity|]. split; [reflexivity|]. simpl.
  split; [apply lookup_insert_eq|].
  intros wantCount wantType maxPrice wantRegion _ _ Hw.
  apply search_elem. split; [|exact Hw].
  eexists _, _. split; [simpl; apply lookup_insert_eq|].
  unfold ProviderCapability.join_agent. simpl. rewrite Ha. reflexivity.
Qed.

Lemma created_capability_is_discoverable_witness :
  agents (db Sample.uworld) !! Sample.uuid "a2" = Some Sample.ben
  /\ exists row w',
       ProviderCapability.create Sample.env (Sample.uuid "a2") 8%float "A100" 64%float
         512%float 30%float None Sample.uworld = (Ok row, w')
       /\ pc_gpu_count row = 8%float
       /\ pc_price_per_hour row = 30%float
       /\ pc_region row = Some "us-east-1"
       /\ pc_availability_status row = Available.
Proof.
  split; [vm_compute; reflexivity|].
  destruct (created_capability_is_discoverable Sample.env
              Sample.uworld (Sample.uuid "a2") "A100" 8%float 64%float
              512%float 30%float None Sample.ben)
    as (row & w' & Hrun & Hrow & _).
  - vm_compute; reflexivity.
  - vm_compute; reflexivity.
  - vm_compute; reflexivity.
  - vm_compute; reflexivity.
  - vm_compute; reflexivity.
  - vm_compute; reflexivity.
  - vm_compute; reflexivity.
  - vm_compute; reflexivity.
  - exists row, w'. split; [exact Hrun|]. rewrite Hrow.
    repeat split; vm_compute; reflexivity.
Defined.

(** The [INT] columns refuse a fractional count and a fractional number
    of hours: nothing is written. *)
Example int_columns_refuse_fractions :
  let created := ProviderCapability.create Sample.env (Sample.uuid "a2") 2.5%float "A100"
                   64%float 512%float 30%float None Sample.uworld in
  let updated := ProviderCapability.updateAvailability (Sample.uuid "c1") 1.5%float Busy
                   Sample.uworld in
  is_ok (fst created) = false /\ db (snd created) = db Sample.uworld
  /\ is_ok (fst updated) = false /\ snd updated = Sample.uworld.
Proof. repeat split; vm_compute; reflexivity. Qed.

(** X25: once [updateAvailability], given an integer number of hours and
    an id that is the text of a UUID, has set a capability to [busy] or
    [offline], no search returns it, whatever is asked; the other tables
    are unchanged. *)
Theorem unavailable_capability_is_hidden
    (w : World) (id : string) (availableHours : number) (status : AvailabilityStatus) :
  status <> Available ->
  Sql.int4_accepts availableHours = true ->
  Sql.canonical_uuid id = true ->
  capabilities_keyed_by_id (db w) ->
  exists r w',
    ProviderCapability.updateAvailability id availableHours status w = (Ok r, w')
    /\ r = provider_capabilities (db w') !! id
    /\ (forall row, r = Some row ->
          pc_availability_status row = status
          /\ pc_available_hours row = Sql.int4 availableHours)
    /\ (forall gpuCount gpuType maxPrice region h,
          h ∈ ProviderCapability.search gpuCount gpuType maxPrice region (db w') ->
          pc_id (hit_capability h) <> id)
    /\ agents (db w') = agents (db w)
    /\ matches (db w') = matches (db w)
    /\ compute_requests (db w') = compute_requests (db w).
Proof.
  intros Hst Hint _ Hkey. unfold ProviderCapability.updateAvailability.
  rewrite Hint. cbn [negb]. run.
  do 2 eexists. split; [reflexivity|]. simpl. split; [reflexivity|].
  split.
  { intros row Hrow. unfold ProviderCapability.findById in Hrow. simpl in Hrow.
    rewrite lookup_alter_eq in Hrow.
    destruct (provider_capabilities (db w) !! id) as [old|]; [|discriminate].
    inversion Hrow; subst row. split; reflexivity. }
  split; [|repeat split].
  intros gpuCount gpuType maxPrice region h Hin Hid.
  apply search_elem in Hin. simpl in Hin.
  destruct Hin as [(k & pc & Hl & Hj) Hw].
  pose proof (join_agent_capability _ _ _ Hj) as E. rewrite E in Hw, Hid.
  clear E Hj. apply where_clause_available in Hw.
  destruct (decide (id = k)) as [<-|Hne].
  - rewrite lookup_alter_eq in Hl.
    destruct (provider_capabilities (db w) !! id) as [old|]; [|discriminate].
    inversion Hl; subst pc. simpl in Hw.
    exact (Hst Hw).
  - rewrite lookup_alter_ne in Hl by exact Hne.
    pose proof (Hkey k pc Hl) as Hk. simpl in Hk. congruence.
Qed.

Lemma unavailable_capability_is_hidden_witness :
  (capabilities_keyed_by_id (db Sample.uworld)
   /\ Sql.canonical_uuid (Sample.uuid "c1") = true
   /\ Sql.int4_accepts 0%float = true)
  /\ exists r w',
       ProviderCapability.updateAvailability (Sample.uuid "c1") 0%float Busy
         Sample.uworld = (Ok r, w')
       /\ forall h,
            h ∈ ProviderCapability.search 8%float "H100" 50%float None (db w') ->
            pc_id (hit_capability h) <> Sample.uuid "c1".
Proof.
  assert (capabilities_keyed_by_id (db Sample.uworld)) as Hkey.
  { refine (bool_decide_unpack _ _). vm_compute. exact I. }
  split; [split; [exact Hkey|split; vm_compute; reflexivity]|].
  destruct (unavailable_capability_is_hidden Sample.uworld (Sample.uuid "c1")
              0%float Busy ltac:(discriminate) eq_refl eq_refl Hkey)
    as (r & w' & Hrun & _ & _ & Hhidden & _).
  exists r, w'. split; [exact Hrun|]. intros h. apply Hhidden.
Defined.

(** X26: a capability that a match refers to cannot be deleted:
    [delete] fails on the foreign key of [matches] and changes nothing. *)
Theorem matched_capability_cannot_be_deleted
    (w : World) (id matchId : string) (pc : CapabilityRow) (m : MatchRow) :
  provider_capabilities (db w) !! id = Some pc ->
  matches (db w) !! matchId = Some m ->
  m_capability_id m = Some id ->
  exists e, ProviderCapability.delete id w = (Throw e, w)
            /\ provider_capabilities (db w) !! id = Some pc.
Proof.
  intros Hpc Hm Hc. unfold ProviderCapability.delete, ProviderCapability.referenced_by_match.
  run.
  rewrite bool_decide_eq_true_2 by (rewrite Hpc; eexists; reflexivity).
  rewrite bool_decide_eq_true_2 by (exists matchId, m; split; assumption).
  simpl. eexists. split; [reflexivity|exact Hpc].
Qed.

Lemma matched_capability_cannot_be_deleted_witness :
  provider_capabilities (db (Sample.with_match Proposed)) !! "capA"
    = Some (Sample.cap "capA" "bob" 45.5%float 100%float Available)
  /\ exists e, ProviderCapability.delete "capA" (Sample.with_match Proposed)
               = (Throw e, Sample.with_match Proposed)
               /\ provider_capabilities (db (Sample.with_match Proposed)) !! "capA"
                  = Some (Sample.cap "capA" "bob" 45.5%float 100%float Available).
Proof.
  split; [vm_compute; reflexivity|].
  refine (matched_capability_cannot_be_deleted (Sample.with_match Proposed)
            "capA" "match1" _ (Sample.match1 Proposed) _ _ _).
  - vm_compute; reflexivity.
  - vm_compute; reflexivity.
  - reflexivity.
Defined.

(** X27: a capability that no match refers to is deleted: under its id,
    the text of a UUID, nothing is stored any more and no search returns
    it; the other capabilities are kept. *)
Theorem deleted_capability_is_gone
    (w : World) (id : string) :
  Sql.canonical_uuid id = true ->
  map_Forall (fun _ m => m_capability_id m <> Some id) (matches (db w)) ->
  capabilities_keyed_by_id (db w) ->
  exists w',
    ProviderCapability.delete id w = (Ok tt, w')
    /\ provider_capabilities (db w') !! id = None
    /\ (forall k, k <> id ->
          provider_capabilities (db w') !! k = provider_capabilities (db w) !! k)
    /\ (forall gpuCount gpuType maxPrice region h,
          h ∈ ProviderCapability.search gpuCount gpuType maxPrice region (db w') ->
          pc_id (hit_capability h) <> id).
Proof.
  intros _ Hfree Hkey.
  unfold ProviderCapability.delete, ProviderCapability.referenced_by_match. run.
  rewrite (bool_decide_eq_false_2 (map_Exists _ _)).
  2:{ intros (k & m & Hm & Hc). exact (Hfree k m Hm Hc). }
  rewrite andb_false_r.
  eexists. split; [reflexivity|]. simpl.
  split; [apply lookup_delete_eq|].
  split; [intros k Hk; apply lookup_delete_ne; congruence|].
  intros gpuCount gpuType maxPrice region h Hin Hid.
  apply search_elem in Hin. simpl in Hin.
  destruct Hin as [(k & pc & Hl & Hj) _].
  pose proof (join_agent_capability _ _ _ Hj) as E. rewrite E in Hid.
  clear E Hj.
  destruct (decide (id = k)) as [<-|Hne].
  - rewrite lookup_delete_eq in Hl. discriminate.
  - rewrite lookup_delete_ne in Hl by exact Hne.
    pose proof (Hkey k pc Hl) as Hk. simpl in Hk. congruence.
Qed.

Lemma deleted_capability_is_gone_witness :
  (capabilities_keyed_by_id (db Sample.uworld)
   /\ Sql.canonical_uuid (Sample.uuid "c2") = true
   /\ is_Some (provider_capabilities (db Sample.uworld) !! Sample.uuid "c2"))
  /\ exists w',
       ProviderCapability.delete (Sample.uuid "c2") Sample.uworld = (Ok tt, w')
       /\ provider_capabilities (db w') !! Sample.uuid "c2" = None.
Proof.
  assert (capabilities_keyed_by_id (db Sample.uworld)) as Hkey.
  { refine (bool_decide_unpack _ _). vm_compute. exact I. }
  split; [split; [exact Hkey|split; [vm_compute; reflexivity|eexists; vm_compute; reflexivity]]|].
  destruct (deleted_capability_is_gone Sample.uworld (Sample.uuid "c2"))
    as (w' & Hrun & Hgone & _).
  - vm_compute; reflexivity.
  - refine (bool_decide_unpack _ _). vm_compute. exact I.
  - exact Hkey.
  - exists w'. split; assumption.
Defined.

(** ** Ranking *)

(** X28: for a request that [search] can read (an integer GPU count, a
    finite price ceiling, a GPU type and a region that are texts),
    [findMatches] does not fail, writes nothing and returns exactly
    [min(limit, n)] candidates, where [n] is the number of rows of
    [search]: each candidate is one of these rows, and all of them are
    candidates when [n <= limit]. *)
Theorem findMatches_returns_min_limit_rows
    (w : World) (request : ReqQuery) (limit : nat) :
  Sql.int4_accepts (rq_gpu_count request) = true ->
  Sql.finite (rq_max_price_per_hour request) = true ->
  Sql.text_accepts (rq_gpu_type request) = true ->
  Sql.text_accepts (default "" (rq_region request)) = true ->
  let rows := ProviderCapability.search
                (rq_gpu_count request) (rq_gpu_type request)
                (rq_max_price_per_hour request)
                (MatchingService.region_or_null (rq_region request)) (db w) in
  exists found,
    MatchingService.findMatches request limit w = (Ok found, w)
    /\ length found = Nat.min limit (length rows)
    /\ (forall sp, sp ∈ found -> sp_provider sp ∈ rows)
    /\ (length rows <= limit -> forall h, h ∈ rows -> h ∈ sp_provider <$> found).
Proof.
  intros _ _ _ _ rows. eexists. split; [apply findMatches_run|]. fold rows.
  split; [rewrite length_take, sort_by_length, length_map; reflexivity|].
  split.
  - intros sp Hin.
    apply subseteq_take in Hin. rewrite sort_by_perm in Hin.
    change (map ?f rows) with (f <$> rows) in Hin.
    apply list_elem_of_fmap in Hin. destruct Hin as (h & -> & Hh). exact Hh.
  - intros Hle h Hh.
    rewrite take_ge by (rewrite sort_by_length, length_map; exact Hle).
    apply list_elem_of_fmap.
    exists {| sp_provider := h;
              match_score := calculateMatchScore request (view_of_hit h) |}.
    split; [reflexivity|].
    rewrite sort_by_perm.
    change (map ?f rows) with (f <$> rows).
    apply (list_elem_of_fmap_2
             (fun provider =>
                {| sp_provider := provider;
                   match_score := calculateMatchScore request (view_of_hit provider) |})).
    exact Hh.
Qed.

Lemma findMatches_returns_min_limit_rows_witness :
  (Sql.int4_accepts 8%float = true /\ Sql.finite 50%float = true)
  /\ exists found,
       MatchingService.findMatches Sample.scenario_request 1 Sample.uworld
         = (Ok found, Sample.uworld)
       /\ length found = 1.
Proof.
  split; [split; vm_compute; reflexivity|].
  destruct (findMatches_returns_min_limit_rows Sample.uworld Sample.scenario_request 1)
    as (found & Hrun & Hlen & _).
  - vm_compute; reflexivity.
  - vm_compute; reflexivity.
  - reflexivity.
  - reflexivity.
  - exists found. split; [exact Hrun|].
    rewrite Hlen. vm_compute. reflexivity.
Defined.

(** ** Confirmation *)


